(** * AI context server: scanner, search and history

    A shallow embedding of [ai-context-server.py].  The server walks a
    project tree, builds a [CodebaseSnapshot] of the files it tracks,
    stores a summary row per scan in SQLite, and answers content-search
    and history queries over HTTP.

    Conventions of the model.
    - A Python [str] is a [string] whose characters are code points
      below 256; [lower], [strip], [splitlines] and [in] are written out
      for that range.
    - A path is the list of its [parts]; the resolved project root is
      absolute, and every path yielded by [rglob] is the root followed
      by the parts relative to it (POSIX flavour).
    - Wall-clock times and modification times are rationals.
    - What the operating system answers for a file (its [stat], what
      [open]/[read] give or raise) is recorded in the [Entry] describing
      it; exceptions are values of [exn].
    - [hashlib.md5(...).hexdigest()] is a section variable. *)

From Stdlib Require Import Ascii String QArith Lqa.
From stdpp Require Import gmap strings list fin_maps sorting.

Local Open Scope string_scope.
Local Open Scope nat_scope.
Local Open Scope list_scope.

(** ** Python string built-ins on code points below 256 *)

Module Py.

Definition code (c : ascii) : nat := nat_of_ascii c.

(** [str.isspace] for one character. *)
Definition isspace (c : ascii) : bool :=
  let n := code c in
  ((9 <=? n) && (n <=? 13)) || ((28 <=? n) && (n <=? 32))
  || (n =? 133) || (n =? 160).

(** The characters [str.splitlines] breaks at. *)
Definition is_line_boundary (c : ascii) : bool :=
  let n := code c in
  ((10 <=? n) && (n <=? 13)) || ((28 <=? n) && (n <=? 30)) || (n =? 133).

Definition lower_char (c : ascii) : ascii :=
  let n := code c in
  if ((65 <=? n) && (n <=? 90))
     || ((192 <=? n) && (n <=? 222) && negb (n =? 215))
  then ascii_of_nat (n + 32) else c.

(** [s.lower()] *)
Fixpoint lower (s : string) : string :=
  match s with
  | EmptyString => EmptyString
  | String c r => String (lower_char c) (lower r)
  end.

Fixpoint lstrip (s : string) : string :=
  match s with
  | EmptyString => EmptyString
  | String c r => if isspace c then lstrip r else s
  end.

Fixpoint rstrip (s : string) : string :=
  match s with
  | EmptyString => EmptyString
  | String c r =>
      match rstrip r with
      | EmptyString => if isspace c then EmptyString else String c EmptyString
      | r' => String c r'
      end
  end.

(** [s.strip()] *)
Definition strip (s : string) : string := rstrip (lstrip s).

(** [needle in hay] *)
Fixpoint contains (needle hay : string) : bool :=
  String.prefix needle hay
  || match hay with
     | EmptyString => false
     | String _ r => contains needle r
     end.

(** [s.splitlines()]: a carriage return followed by a line feed is one
    break; a break at the very end opens no further line. *)
Fixpoint splitlines (s : string) : list string :=
  match s with
  | EmptyString => []
  | String c r =>
      if is_line_boundary c then
        EmptyString ::
          match r with
          | String c' r' =>
              if (code c =? 13) && (code c' =? 10)
              then splitlines r' else splitlines r
          | EmptyString => splitlines r
          end
      else
        match splitlines r with
        | [] => [String c EmptyString]
        | l :: ls => String c l :: ls
        end
  end.

(** Normalisation of one slice bound against a length. *)
Definition slice_index (len i : Z) : Z :=
  if (i <? 0)%Z then Z.max 0 (i + len) else Z.min i len.

(** [l[start:stop]] *)
Definition slice {A} (l : list A) (start stop : Z) : list A :=
  let len := Z.of_nat (length l) in
  let a := slice_index len start in
  let b := slice_index len stop in
  take (Z.to_nat (b - a)) (drop (Z.to_nat a) l).

(** [d.get(k, 0)] *)
Definition get0 (d : gmap string nat) (k : string) : nat :=
  default 0 (d !! k).

End Py.

(** ** pathlib *)

Module Path.

(** The text from the last dot of [s] on, when [s] has a dot. *)
Fixpoint from_last_dot (s : string) : option string :=
  match s with
  | EmptyString => None
  | String c r =>
      match from_last_dot r with
      | Some t => Some t
      | None => if Ascii.eqb c "."%char then Some s else None
      end
  end.

(** [PurePath.suffix] of a final component: with [i = name.rfind('.')],
    it is [name[i:]] when [0 < i < len(name) - 1], and empty otherwise. *)
Definition suffix_of_name (name : string) : string :=
  match name with
  | EmptyString => EmptyString
  | String _ r =>
      match from_last_dot r with
      | Some t => if 2 <=? String.length t then t else EmptyString
      | None => EmptyString
      end
  end.

(** [path.name] *)
Definition name (parts : list string) : string := List.last parts EmptyString.

(** [path.suffix] *)
Definition suffix (parts : list string) : string := suffix_of_name (name parts).

(** [str(path)]: the root part, when there is one, is not followed
    by a separator; the path without parts prints as a dot. *)
Definition str (parts : list string) : string :=
  match parts with
  | [] => "."
  | p :: rest =>
      if String.eqb p "/" then String "/"%char (String.concat "/" rest)
      else String.concat "/" parts
  end.

End Path.

(** ** Data model *)

(** Exceptions the modelled calls can raise. *)
Inductive exn : Type :=
  | UnicodeDecodeError
  | FileNotFoundError
  | PermissionError
  | IsADirectoryError.

(** What [open(p, 'r', encoding='utf-8')] followed by [f.read()] gives. *)
Inductive ReadResult : Type :=
  | Text (content : string)
  | Raises (e : exn).

(** [os.stat_result], the two fields the scanner keeps. *)
Record StatResult : Type := { st_size : nat; st_mtime : Q }.

(** One path yielded by [project_root.rglob('*')], with what the
    operating system answers about it. *)
Record Entry : Type := {
  rel_parts : list string;        (* parts below the project root *)
  is_file : bool;                 (* file_path.is_file() *)
  stat : option StatResult;       (* file_path.stat(); None: it raises *)
  read : ReadResult               (* open + read *)
}.

Module FileInfo.
Record t : Type := {
  path : string;
  size : nat;
  modified : Q;
  content_hash : string;
  file_type : string;
  lines : nat
}.
End FileInfo.

Module CodebaseSnapshot.
Record t : Type := {
  timestamp : Q;
  total_files : nat;
  total_lines : nat;
  file_types : gmap string nat;
  files : list FileInfo.t
}.
End CodebaseSnapshot.

(** A row of table [codebase_snapshots]; [file_types] is the stored JSON
    text, kept as the dictionary it encodes ([None]: empty or NULL). *)
Module SnapshotRow.
Record t : Type := {
  timestamp : Q;
  total_files : nat;
  total_lines : nat;
  file_types : option (gmap string nat);
  git_commit : option string
}.
End SnapshotRow.

(** A row of table [file_snapshots]. *)
Module FileRow.
Record t : Type := {
  timestamp : Q;
  file_path : string;
  content_hash : string;
  file_size : nat;
  modified_time : Q;
  lines : nat
}.
End FileRow.

Record Database : Type := {
  codebase_snapshots : list SnapshotRow.t;
  file_snapshots : list FileRow.t
}.

(** The server object: [self.project_root] (parts of the resolved
    path), [self.current_snapshot] and the SQLite file. *)
Record Server : Type := {
  project_root : list string;
  current_snapshot : option CodebaseSnapshot.t;
  db : Database
}.

(** The outside world at the time of a call. *)
Record World : Type := {
  tree : list Entry;              (* rglob order *)
  now : Q;                        (* time.time() *)
  git_head : option string;       (* git rev-parse HEAD, when it succeeds *)
  db_writable : bool              (* whether SQLite accepts the inserts *)
}.

(** The same world with another tree. *)
Definition with_tree (w : World) (t : list Entry) : World :=
  {| tree := t; now := now w; git_head := git_head w; db_writable := db_writable w |}.

(** ** Scanner *)

Definition code_extensions : list (string * string) :=
  [ (".rs", "rust"); (".py", "python"); (".js", "javascript");
    (".ts", "typescript"); (".proto", "protobuf"); (".sql", "sql");
    (".toml", "toml"); (".yaml", "yaml"); (".yml", "yaml");
    (".json", "json"); (".md", "markdown"); (".sh", "shell");
    (".txt", "text"); (".lisp", "lisp"); (".cbu", "cbu-dsl") ].

Definition ignore_dirs : list string :=
  [ "target"; ".git"; "node_modules"; ".next"; "dist";
    "build"; "__pycache__"; ".vscode"; ".idea"; "export" ].

(** [ext in code_extensions] and [code_extensions[ext]] in one lookup. *)
Fixpoint dict_get (d : list (string * string)) (k : string) : option string :=
  match d with
  | [] => None
  | (k', v) :: d' => if String.eqb k k' then Some v else dict_get d' k
  end.

(** [part in ignore_dirs] *)
Definition in_ignore_dirs (part : string) : bool :=
  existsb (String.eqb part) ignore_dirs.

(** [file_path.parts] of an entry: the root's parts, then its own. *)
Definition abs_parts (root : list string) (e : Entry) : list string :=
  root ++ rel_parts e.

(** [any(part in ignore_dirs for part in file_path.parts)] *)
Definition ignored (root : list string) (e : Entry) : bool :=
  existsb in_ignore_dirs (abs_parts root e).

(** The three accumulators of the walk. *)
Record ScanAcc : Type := {
  acc_files : list FileInfo.t;
  acc_file_types : gmap string nat;
  acc_total_lines : nat
}.

Definition scan_init : ScanAcc :=
  {| acc_files := []; acc_file_types := ∅; acc_total_lines := 0 |}.

Section Scanner.

(** [hashlib.md5(s.encode()).hexdigest()] *)
Variable md5 : string -> string.

(** The tail of the loop body once [content_hash], [lines] and the
    running [total_lines] are known: count the category, append the
    record. *)
Definition scan_commit (e : Entry) (st : StatResult)
    (file_type content_hash : string) (lines total_lines : nat)
    (acc : ScanAcc) : ScanAcc :=
  let file_types :=
    <[file_type := Py.get0 (acc_file_types acc) file_type + 1]>
      (acc_file_types acc) in
  let file_info :=
    {| FileInfo.path := Path.str (rel_parts e);
       FileInfo.size := st_size st;
       FileInfo.modified := st_mtime st;
       FileInfo.content_hash := content_hash;
       FileInfo.file_type := file_type;
       FileInfo.lines := lines |} in
  {| acc_files := acc_files acc ++ [file_info];
     acc_file_types := file_types;
     acc_total_lines := total_lines |}.

(** One iteration of [for file_path in self.project_root.rglob('*')]. *)
Definition scan_step (root : list string) (acc : ScanAcc) (e : Entry) : ScanAcc :=
  if ignored root e then acc                       (* continue *)
  else if negb (is_file e) then acc
  else
    let ext := Py.lower (Path.suffix (abs_parts root e)) in
    match dict_get code_extensions ext with
    | None => acc
    | Some file_type =>
        match stat e with
        | None => acc                              (* except Exception *)
        | Some st =>
            match read e with
            | Text content =>
                let lines := List.length (Py.splitlines content) in
                scan_commit e st file_type (md5 content) lines
                  (acc_total_lines acc + lines) acc
            | Raises UnicodeDecodeError =>
                scan_commit e st file_type
                  (md5 (Path.str (abs_parts root e))) 0
                  (acc_total_lines acc) acc
            | Raises _ => acc                      (* except Exception *)
            end
        end
    end.

Definition scan_walk (root : list string) (walk : list Entry) : ScanAcc :=
  fold_left (scan_step root) walk scan_init.

(** The snapshot [scan_codebase] builds and returns. *)
Definition make_snapshot (root : list string) (w : World) : CodebaseSnapshot.t :=
  let acc := scan_walk root (tree w) in
  {| CodebaseSnapshot.timestamp := now w;
     CodebaseSnapshot.total_files := List.length (acc_files acc);
     CodebaseSnapshot.total_lines := acc_total_lines acc;
     CodebaseSnapshot.file_types := acc_file_types acc;
     CodebaseSnapshot.files := acc_files acc |}.

Definition file_row (ts : Q) (f : FileInfo.t) : FileRow.t :=
  {| FileRow.timestamp := ts;
     FileRow.file_path := FileInfo.path f;
     FileRow.content_hash := FileInfo.content_hash f;
     FileRow.file_size := FileInfo.size f;
     FileRow.modified_time := FileInfo.modified f;
     FileRow.lines := FileInfo.lines f |}.

(** [save_snapshot]: one summary row and one row per file, committed
    together; a failing database is logged and changes nothing. *)
Definition save_snapshot (w : World) (snapshot : CodebaseSnapshot.t)
    (d : Database) : Database :=
  if db_writable w then
    {| codebase_snapshots :=
         codebase_snapshots d ++
         [ {| SnapshotRow.timestamp := CodebaseSnapshot.timestamp snapshot;
              SnapshotRow.total_files := CodebaseSnapshot.total_files snapshot;
              SnapshotRow.total_lines := CodebaseSnapshot.total_lines snapshot;
              SnapshotRow.file_types := Some (CodebaseSnapshot.file_types snapshot);
              SnapshotRow.git_commit := git_head w |} ];
       file_snapshots :=
         file_snapshots d ++
         map (file_row (CodebaseSnapshot.timestamp snapshot))
             (CodebaseSnapshot.files snapshot) |}
  else d.

(** [scan_codebase]: build the snapshot, make it current, save it. *)
Definition scan_codebase (w : World) (s : Server) : CodebaseSnapshot.t * Server :=
  let snapshot := make_snapshot (project_root s) w in
  (snapshot,
   {| project_root := project_root s;
      current_snapshot := Some snapshot;
      db := save_snapshot w snapshot (db s) |}).

End Scanner.

(** ** Search *)

Module SearchMatch.
Record t : Type := {
  line_number : nat;
  content : string;
  context_before : list string;
  context_after : list string
}.
End SearchMatch.

Module FileResult.
Record t : Type := {
  file : string;
  file_type : string;
  matches : list SearchMatch.t
}.
End FileResult.

Module SearchResponse.
Record t : Type := {
  query : string;
  results : list FileResult.t;
  total_files_searched : nat;
  files_with_matches : nat
}.
End SearchResponse.

(** What a route hands back: a JSON body, the 400 of an explicit
    [return jsonify({'error': ...}), 400], or an exception that leaves
    the handler. *)
Inductive Response (A : Type) : Type :=
  | Ok (body : A)
  | BadRequest (error : string)
  | Uncaught (e : exn).
Arguments Ok {A} body.
Arguments BadRequest {A} error.
Arguments Uncaught {A} e.

(** The query string of a search request: [q], [type], [case_sensitive]. *)
Record SearchArgs : Type := {
  arg_q : option string;
  arg_type : option string;
  arg_case_sensitive : option string
}.

(** [open(self.project_root / path, 'r', encoding='utf-8')] and
    [f.read()] against the tree as it is now. *)
Definition read_path (w : World) (path : string) : ReadResult :=
  match List.find (fun e => String.eqb (Path.str (rel_parts e)) path) (tree w) with
  | Some e => read e
  | None => Raises FileNotFoundError
  end.

(** Truth value of an optional string: [None] and [''] are false. *)
Definition truthy (o : option string) : bool :=
  match o with
  | None | Some EmptyString => false
  | Some _ => true
  end.

Section Search.

Variable case_sensitive : bool.
Variable search_query : string.

(** [line if case_sensitive else line.lower()] *)
Definition fold_case (s : string) : string :=
  if case_sensitive then s else Py.lower s.

(** The dictionary appended for a matching line at index [i]. *)
Definition match_entry (lines : list string) (i : nat) (line : string) : SearchMatch.t :=
  let iz := Z.of_nat i in
  let len := Z.of_nat (List.length lines) in
  {| SearchMatch.line_number := i + 1;
     SearchMatch.content := Py.strip line;
     SearchMatch.context_before :=
       if (1 <? iz)%Z then Py.slice lines (Z.max 0 (iz - 2)) iz else [];
     SearchMatch.context_after :=
       if (iz <? len - 1)%Z
       then Py.slice lines (iz + 1) (Z.min len (iz + 3)) else [] |}.

(** [for i, line in enumerate(lines)], from index [i] on. *)
Fixpoint matching_from (lines : list string) (i : nat) (rest : list string)
    : list SearchMatch.t :=
  match rest with
  | [] => []
  | line :: rest' =>
      if Py.contains search_query (fold_case line)
      then match_entry lines i line :: matching_from lines (S i) rest'
      else matching_from lines (S i) rest'
  end.

Definition matching_lines (lines : list string) : list SearchMatch.t :=
  matching_from lines 0 lines.

(** The body of the [with open(...)] block for one file: the result to
    append, if any. *)
Definition search_text (file_info : FileInfo.t) (content : string)
    : option FileResult.t :=
  if Py.contains search_query (fold_case content) then
    match matching_lines (Py.splitlines content) with
    | [] => None
    | ms =>
        Some {| FileResult.file := FileInfo.path file_info;
                FileResult.file_type := FileInfo.file_type file_info;
                FileResult.matches := take 10 ms |}
    end
  else None.

Variable w : World.
Variable file_type : option string.

(** [file_type and file_info.file_type != file_type] *)
Definition filtered_out (file_info : FileInfo.t) : bool :=
  truthy file_type
  && negb (String.eqb (FileInfo.file_type file_info) (default EmptyString file_type)).

(** [for file_info in self.current_snapshot.files]: the results so
    far, or the exception that the [except] clause lets through. *)
Fixpoint search_loop (files : list FileInfo.t) (results : list FileResult.t)
    : exn + list FileResult.t :=
  match files with
  | [] => inr results
  | file_info :: files' =>
      if filtered_out file_info then search_loop files' results
      else
        match read_path w (FileInfo.path file_info) with
        | Text content =>
            match search_text file_info content with
            | Some r => search_loop files' (results ++ [r])
            | None => search_loop files' results
            end
        | Raises UnicodeDecodeError | Raises FileNotFoundError =>
            search_loop files' results             (* continue *)
        | Raises e => inl e
        end
  end.

End Search.

Section Routes.

Variable md5 : string -> string.

(** [if not self.current_snapshot: self.scan_codebase()] *)
Definition ensure_snapshot (w : World) (s : Server) : CodebaseSnapshot.t * Server :=
  match current_snapshot s with
  | Some snapshot => (snapshot, s)
  | None => scan_codebase md5 w s
  end.

(** Route [/api/codebase/search]. *)
Definition search_content (w : World) (s : Server) (args : SearchArgs)
    : Response SearchResponse.t * Server :=
  let query := Py.strip (default EmptyString (arg_q args)) in
  let file_type := arg_type args in
  let case_sensitive :=
    String.eqb (Py.lower (default "false" (arg_case_sensitive args))) "true" in
  if negb (truthy (Some query)) then (BadRequest "Query parameter required", s)
  else
    let '(snapshot, s') := ensure_snapshot w s in
    let search_query := if case_sensitive then query else Py.lower query in
    match search_loop case_sensitive search_query w file_type
            (CodebaseSnapshot.files snapshot) [] with
    | inl e => (Uncaught e, s')
    | inr results =>
        (Ok {| SearchResponse.query := query;
               SearchResponse.results := results;
               SearchResponse.total_files_searched :=
                 List.length (CodebaseSnapshot.files snapshot);
               SearchResponse.files_with_matches := List.length results |},
         s')
    end.

End Routes.

(** ** History *)

Module HistoryEntry.
Record t : Type := {
  timestamp : Q;
  total_files : nat;
  total_lines : nat;
  file_types : gmap string nat;
  git_commit : option string
}.
End HistoryEntry.

(** [ORDER BY timestamp DESC]: the row order of the result. *)
Definition newer_first (a b : SnapshotRow.t) : Prop :=
  (SnapshotRow.timestamp b <= SnapshotRow.timestamp a)%Q.

#[export] Instance newer_first_dec : RelDecision newer_first.
Proof.
  intros a b. unfold newer_first.
  destruct (Qle_bool (SnapshotRow.timestamp b) (SnapshotRow.timestamp a)) eqn:E.
  - left. apply Qle_bool_iff, E.
  - right. intros H. apply Qle_bool_iff in H. congruence.
Defined.

(** [WHERE timestamp > ?] *)
Definition after (cutoff_time : Q) (r : SnapshotRow.t) : bool :=
  negb (Qle_bool (SnapshotRow.timestamp r) cutoff_time).

(** The SELECT of [get_history]. *)
Definition select_history (cutoff_time : Q) (d : Database) : list SnapshotRow.t :=
  take 100 (merge_sort newer_first (List.filter (after cutoff_time) (codebase_snapshots d))).

Definition history_entry (row : SnapshotRow.t) : HistoryEntry.t :=
  {| HistoryEntry.timestamp := SnapshotRow.timestamp row;
     HistoryEntry.total_files := SnapshotRow.total_files row;
     HistoryEntry.total_lines := SnapshotRow.total_lines row;
     HistoryEntry.file_types := default ∅ (SnapshotRow.file_types row);
     HistoryEntry.git_commit := SnapshotRow.git_commit row |}.

(** [time.time() - (days * 24 * 60 * 60)] *)
Definition cutoff_time (w : World) (days : Z) : Q :=
  (now w - inject_Z (days * 24 * 60 * 60))%Q.

(** Route [/api/codebase/history]; [arg_days] is the [days] parameter
    when it is present and parses as an integer. *)
Definition get_history (w : World) (s : Server) (arg_days : option Z)
    : list HistoryEntry.t * Z :=
  let days := default 7%Z arg_days in
  (map history_entry (select_history (cutoff_time w days) (db s)), days).

(** ** Listing, file content and statistics *)

(** The query string of a listing request: [type] and [search]. *)
Record FilesArgs : Type := {
  farg_type : option string;
  farg_search : option string
}.

Module FilesResponse.
Record t : Type := {
  files : list FileInfo.t;
  total_count : nat;
  filtered_count : nat
}.
End FilesResponse.

Module FileContent.
Record t : Type := {
  path : string;
  content : string;
  size : nat;
  modified : Q;
  lines : nat
}.
End FileContent.

(** What [get_file_content] hands back: the body, or one of its three
    error answers. *)
Inductive FileContentResponse : Type :=
  | ContentOk (body : FileContent.t)
  | NotFound404                     (* 'File not found' *)
  | Binary400                       (* 'Binary file cannot be displayed as text' *)
  | Error500.                       (* str(e) of any other exception *)

(** The entry a request path names in the tree as it is now. *)
Definition find_entry (w : World) (path : string) : option Entry :=
  List.find (fun e => String.eqb (Path.str (rel_parts e)) path) (tree w).

(** Route [/api/codebase/file/<path>]; [path] names an entry below the
    root or nothing. *)
Definition get_file_content (w : World) (path : string) : FileContentResponse :=
  match find_entry w path with
  | None => NotFound404                              (* not full_path.exists() *)
  | Some e =>
      if negb (is_file e) then NotFound404
      else
        match read e with
        | Text content =>
            match stat e with
            | Some st =>
                ContentOk
                  {| FileContent.path := path;
                     FileContent.content := content;
                     FileContent.size := st_size st;
                     FileContent.modified := st_mtime st;
                     FileContent.lines := List.length (Py.splitlines content) |}
            | None => Error500
            end
        | Raises UnicodeDecodeError => Binary400
        | Raises _ => Error500
        end
  end.

Section Listing.

Variable md5 : string -> string.

(** Route [/api/codebase/files]. *)
Definition get_files (w : World) (s : Server) (args : FilesArgs)
    : FilesResponse.t * Server :=
  let '(snapshot, s') := ensure_snapshot md5 w s in
  let file_type := farg_type args in
  let search := Py.lower (default EmptyString (farg_search args)) in
  let files := CodebaseSnapshot.files snapshot in
  let files :=
    if truthy file_type
    then List.filter
           (fun f => String.eqb (FileInfo.file_type f) (default EmptyString file_type))
           files
    else files in
  let files :=
    if truthy (Some search)
    then List.filter (fun f => Py.contains search (Py.lower (FileInfo.path f))) files
    else files in
  ({| FilesResponse.files := files;
      FilesResponse.total_count := List.length (CodebaseSnapshot.files snapshot);
      FilesResponse.filtered_count := List.length files |},
   s').

End Listing.

(** The bucket [calculate_size_distribution] counts a size in. *)
Definition size_bucket (size : nat) : string :=
  let n := Z.of_nat size in
  if (n <? 1024)%Z then "tiny"
  else if (n <? 10240)%Z then "small"
  else if (n <? 102400)%Z then "medium"
  else if (n <? 1048576)%Z then "large"
  else "huge".

(** [distribution[k] += 1] *)
Definition increment (d : gmap string nat) (k : string) : gmap string nat :=
  <[k := Py.get0 d k + 1]> d.

Definition empty_distribution : gmap string nat :=
  <["tiny" := 0]> (<["small" := 0]> (<["medium" := 0]>
    (<["large" := 0]> (<["huge" := 0]> ∅)))).

(** [calculate_size_distribution] *)
Definition calculate_size_distribution (s : Server) : gmap string nat :=
  match current_snapshot s with
  | None => ∅
  | Some snapshot =>
      fold_left (fun d file_info => increment d (size_bucket (FileInfo.size file_info)))
        (CodebaseSnapshot.files snapshot) empty_distribution
  end.

(** Where [list.sort(key=modified, reverse=True)] puts one more record
    that stood before those of [l]: after the records that are strictly
    newer, before the others (the sort is stable). *)
Fixpoint insert_newest_first (f : FileInfo.t) (l : list FileInfo.t) : list FileInfo.t :=
  match l with
  | [] => [f]
  | g :: l' =>
      if Qle_bool (FileInfo.modified g) (FileInfo.modified f)
      then f :: l
      else g :: insert_newest_first f l'
  end.

Definition sort_newest_first (l : list FileInfo.t) : list FileInfo.t :=
  fold_right insert_newest_first [] l.

(** [f.modified > cutoff_time] *)
Definition modified_after (cutoff : Q) (f : FileInfo.t) : bool :=
  negb (Qle_bool (FileInfo.modified f) cutoff).

(** [get_recent_file_changes(hours)] *)
Definition get_recent_file_changes (w : World) (s : Server) (hours : Z)
    : list FileInfo.t :=
  match current_snapshot s with
  | None => []
  | Some snapshot =>
      let cutoff := (now w - inject_Z (hours * 60 * 60))%Q in
      take 20 (sort_newest_first
                 (List.filter (modified_after cutoff) (CodebaseSnapshot.files snapshot)))
  end.

(** ** Git status *)

(** What [subprocess.run] returned. *)
Record CompletedProcess : Type := { returncode : Z; stdout : string }.

Module GitStatus.
Record t : Type := {
  clean : bool;
  modified_files : nat;
  added_files : nat;
  untracked_files : nat;
  total_changes : nat
}.
End GitStatus.

(** [s.split('\n')] *)
Fixpoint split_newline (s : string) : list string :=
  match s with
  | EmptyString => [EmptyString]
  | String c r =>
      if Nat.eqb (Py.code c) 10 then EmptyString :: split_newline r
      else
        match split_newline r with
        | [] => [String c EmptyString]
        | l :: ls => String c l :: ls
        end
  end.

(** [len([l for l in lines if l.startswith(p)])] *)
Definition count_startswith (p : string) (lines : list string) : nat :=
  List.length (List.filter (String.prefix p) lines).

(** [get_git_status]; [run] is [None] when [subprocess.run] raises, and
    the answer is [None] for the dictionary that reports the error. *)
Definition get_git_status (run : option CompletedProcess) : option GitStatus.t :=
  match run with
  | None => None
  | Some result =>
      if (returncode result =? 0)%Z then
        let lines :=
          if truthy (Some (Py.strip (stdout result)))
          then split_newline (Py.strip (stdout result)) else [] in
        Some {| GitStatus.clean := Nat.eqb (List.length lines) 0;
                GitStatus.modified_files := count_startswith " M" lines;
                GitStatus.added_files := count_startswith "A " lines;
                GitStatus.untracked_files := count_startswith "??" lines;
                GitStatus.total_changes := List.length lines |}
      else None
  end.

(** ** File watcher *)


Section Watching.

Variable md5 : string -> string.



End Watching.

(** ** Specification-side views of the scanner *)

Section ScanSpec.

Variable md5 : string -> string.
Variable root : list string.

(** The record one iteration appends for an entry, if it appends one. *)
Definition record_of (e : Entry) : option FileInfo.t :=
  if ignored root e then None
  else if negb (is_file e) then None
  else
    match dict_get code_extensions (Py.lower (Path.suffix (abs_parts root e))),
          stat e with
    | Some file_type, Some st =>
        let mk h n :=
          Some {| FileInfo.path := Path.str (rel_parts e);
                  FileInfo.size := st_size st;
                  FileInfo.modified := st_mtime st;
                  FileInfo.content_hash := h;
                  FileInfo.file_type := file_type;
                  FileInfo.lines := n |} in
        match read e with
        | Text content => mk (md5 content) (List.length (Py.splitlines content))
        | Raises UnicodeDecodeError => mk (md5 (Path.str (abs_parts root e))) 0
        | Raises _ => None
        end
    | _, _ => None
    end.

(** The effect of appending one record on the accumulators. *)
Definition push (acc : ScanAcc) (f : FileInfo.t) : ScanAcc :=
  {| acc_files := acc_files acc ++ [f];
     acc_file_types :=
       <[FileInfo.file_type f :=
           Py.get0 (acc_file_types acc) (FileInfo.file_type f) + 1]>
         (acc_file_types acc);
     acc_total_lines := acc_total_lines acc + FileInfo.lines f |}.

End ScanSpec.

(** Number of records of category [c]. *)
Definition category_count (c : string) (fs : list FileInfo.t) : nat :=
  count_occ string_dec (map FileInfo.file_type fs) c.

(** An entry has a path segment that is in the ignore set. *)
Definition has_ignored_part (parts : list string) : Prop :=
  exists part, In part parts /\ In part ignore_dirs.

(** A path segment: not empty and free of the separator. *)
Definition is_segment (p : string) : Prop :=
  p <> EmptyString /\ Py.contains "/" p = false.

(** The parts of a path below the root: at least one, all segments. *)
Definition relative_parts (parts : list string) : Prop :=
  parts <> [] /\ Forall is_segment parts.

(** The flag and the needle [search_content] derives from a request. *)
Definition request_case_sensitive (args : SearchArgs) : bool :=
  String.eqb (Py.lower (default "false" (arg_case_sensitive args))) "true".

Definition request_query (args : SearchArgs) : string :=
  Py.strip (default EmptyString (arg_q args)).

Definition request_search_query (args : SearchArgs) : string :=
  if request_case_sensitive args then request_query args
  else Py.lower (request_query args).

(** ** Sample inputs *)

Module Sample.

Definition nl : string := String (ascii_of_nat 10) EmptyString.

(** A stand-in for the digest. *)
Definition digest (s : string) : string := String.append "md5:" s.

Definition st0 : StatResult := {| st_size := 12; st_mtime := 100 |}.

Definition text_py : Entry :=
  {| rel_parts := ["a.py"]; is_file := true; stat := Some st0;
     read := Text (String.concat nl ["import os"; "print(os.name)"; ""]) |}.

Definition binary_md : Entry :=
  {| rel_parts := ["docs"; "logo.MD"]; is_file := true; stat := Some st0;
     read := Raises UnicodeDecodeError |}.

Definition vendored_js : Entry :=
  {| rel_parts := ["web"; "node_modules"; "lib"; "index.js"]; is_file := true;
     stat := Some st0; read := Text "var x;" |}.

Definition locked_py : Entry :=
  {| rel_parts := ["secret.py"]; is_file := true; stat := Some st0;
     read := Raises PermissionError |}.

Definition docs_dir : Entry :=
  {| rel_parts := ["docs"]; is_file := false; stat := Some st0;
     read := Raises IsADirectoryError |}.

Definition gone_py : Entry :=
  {| rel_parts := ["gone.py"]; is_file := true; stat := Some st0;
     read := Text "import os" |}.

Definition secret_py : Entry :=
  {| rel_parts := ["secret.py"]; is_file := true; stat := Some st0;
     read := Text "import os" |}.

(** Five lines, the needle on the first. *)
Definition notes_txt : Entry :=
  {| rel_parts := ["notes.txt"]; is_file := true; stat := Some st0;
     read := Text (String.concat nl ["Q"; "b"; "c"; "d"; "e"]) |}.

(** Twenty lines, the needle on lines 5 and 12. *)
Definition twenty_txt : Entry :=
  {| rel_parts := ["twenty.txt"]; is_file := true; stat := Some st0;
     read := Text (String.concat nl
               ["l1"; "l2"; "l3"; "l4"; "  Q five "; "l6"; "l7"; "l8"; "l9"; "l10";
                "l11"; "Q twelve"; "l13"; "l14"; "l15"; "l16"; "l17"; "l18";
                "l19"; "l20"]) |}.

Definition root : list string := ["/"; "home"; "dev"; "project"].

Definition ask (q : string) (type : option string) : SearchArgs :=
  {| arg_q := Some q; arg_type := type; arg_case_sensitive := None |}.

Definition empty_db : Database :=
  {| codebase_snapshots := []; file_snapshots := [] |}.

Definition world (t : list Entry) : World :=
  {| tree := t; now := 1000; git_head := Some "abc123"; db_writable := true |}.

Definition server (r : list string) : Server :=
  {| project_root := r; current_snapshot := None; db := empty_db |}.

(** The server after a scan of [t]. *)
Definition scanned (t : list Entry) : Server :=
  snd (scan_codebase digest (world t) (server root)).

Definition row (ts : Q) : SnapshotRow.t :=
  {| SnapshotRow.timestamp := ts; SnapshotRow.total_files := 1;
     SnapshotRow.total_lines := 1; SnapshotRow.file_types := None;
     SnapshotRow.git_commit := None |}.

End Sample.

(** A string made of whitespace only. *)
Fixpoint blank (s : string) : bool :=
  match s with
  | EmptyString => true
  | String c r => Py.isspace c && blank r
  end.

(** [a] is at least as recently modified as [b]. *)
Definition newer_file (a b : FileInfo.t) : Prop :=
  (FileInfo.modified b <= FileInfo.modified a)%Q.

(** * Properties *)

(** ** The walk, one record at a time *)

Section ScanFacts.

Variable md5 : string -> string.
Variable root : list string.

Lemma scan_step_push acc e :
  scan_step md5 root acc e =
  match record_of md5 root e with
  | Some f => push acc f
  | None => acc
  end.
Proof.
  unfold scan_step, record_of.
  destruct (ignored root e); [reflexivity |].
  destruct (negb (is_file e)); [reflexivity |].
  destruct (dict_get code_extensions _) as [ft |]; [| reflexivity].
  destruct (stat e) as [st |]; [| reflexivity].
  destruct (read e) as [content | []]; try reflexivity.
  unfold scan_commit, push; simpl. do 2 f_equal. lia.
Qed.

Lemma scan_fold_push walk acc :
  fold_left (scan_step md5 root) walk acc =
  fold_left push (omap (record_of md5 root) walk) acc.
Proof.
  revert acc. induction walk as [| e walk IH]; intros acc; [reflexivity |].
  cbn [fold_left omap list_omap]. rewrite IH, scan_step_push.
  destruct (record_of md5 root e); reflexivity.
Qed.

Lemma push_files fs acc :
  acc_files (fold_left push fs acc) = acc_files acc ++ fs.
Proof.
  revert acc. induction fs as [| f fs IH]; intros acc; simpl.
  - symmetry. apply app_nil_r.
  - rewrite IH. simpl. rewrite <- app_assoc. reflexivity.
Qed.

Lemma push_total_lines fs acc :
  acc_total_lines (fold_left push fs acc) =
  acc_total_lines acc + sum_list_with FileInfo.lines fs.
Proof.
  revert acc. induction fs as [| f fs IH]; intros acc; simpl.
  - lia.
  - rewrite IH. simpl. lia.
Qed.

Lemma push_file_types fs acc c :
  acc_file_types (fold_left push fs acc) !! c =
  match category_count c fs with
  | 0 => acc_file_types acc !! c
  | S n => Some (Py.get0 (acc_file_types acc) c + S n)
  end.
Proof.
  revert acc. induction fs as [| f fs IH]; intros acc; [reflexivity |].
  cbn [fold_left]. rewrite IH. unfold category_count. cbn [map count_occ].
  fold (category_count c fs).
  destruct (string_dec (FileInfo.file_type f) c) as [Heq | Hne].
  - subst c. unfold Py.get0. simpl. rewrite lookup_insert_eq. simpl.
    destruct (category_count _ fs); unfold Py.get0; f_equal; lia.
  - unfold Py.get0. simpl. rewrite lookup_insert_ne by exact Hne.
    reflexivity.
Qed.

Lemma scan_walk_files walk :
  acc_files (scan_walk md5 root walk) = omap (record_of md5 root) walk.
Proof. unfold scan_walk. rewrite scan_fold_push, push_files. reflexivity. Qed.

Lemma scan_walk_total_lines walk :
  acc_total_lines (scan_walk md5 root walk) =
  sum_list_with FileInfo.lines (omap (record_of md5 root) walk).
Proof. unfold scan_walk. rewrite scan_fold_push, push_total_lines. reflexivity. Qed.

Lemma scan_walk_file_types walk c :
  acc_file_types (scan_walk md5 root walk) !! c =
  match category_count c (omap (record_of md5 root) walk) with
  | 0 => None
  | S n => Some (S n)
  end.
Proof.
  unfold scan_walk. rewrite scan_fold_push, push_file_types.
  destruct (category_count _ _); reflexivity.
Qed.

End ScanFacts.

(** ** Snapshots *)

(** C2. The snapshot a scan returns (and makes current) has
    [total_files] equal to the length of [files], [total_lines] equal to
    the sum of the files' [lines], and [file_types] equal to the
    histogram of the files' [file_type]: a category is a key exactly
    when some file has it, and its value is the number of such files. *)
Theorem C2_snapshot_invariant (md5 : string -> string) (w : World) (s : Server) :
  let snapshot := fst (scan_codebase md5 w s) in
  current_snapshot (snd (scan_codebase md5 w s)) = Some snapshot /\
  CodebaseSnapshot.total_files snapshot
    = List.length (CodebaseSnapshot.files snapshot) /\
  CodebaseSnapshot.total_lines snapshot
    = sum_list_with FileInfo.lines (CodebaseSnapshot.files snapshot) /\
  forall c : string,
    CodebaseSnapshot.file_types snapshot !! c =
    match category_count c (CodebaseSnapshot.files snapshot) with
    | 0 => None
    | S n => Some (S n)
    end.
Proof.
  simpl. repeat split.
  - rewrite scan_walk_total_lines, scan_walk_files. reflexivity.
  - intros c. rewrite scan_walk_file_types, scan_walk_files. reflexivity.
Qed.

Lemma category_count_perm c (fs gs : list FileInfo.t) :
  fs ≡ₚ gs -> category_count c fs = category_count c gs.
Proof.
  intros H. unfold category_count.
  apply (Permutation_count_occ string_dec). apply Permutation_map, H.
Qed.

(** C3. Two scans of the same root over trees holding the same entries
    (in the same or another walk order) give snapshots with equal
    [total_files], [total_lines] and [file_types] and the same digest
    for every path; walked in the same order, the file lists are equal.
    The scan times are free. *)
Theorem C3_rescan_unchanged (md5 : string -> string) (w1 w2 : World) (s1 s2 : Server) :
  project_root s1 = project_root s2 ->
  tree w1 ≡ₚ tree w2 ->
  let a := fst (scan_codebase md5 w1 s1) in
  let b := fst (scan_codebase md5 w2 s2) in
  CodebaseSnapshot.total_files a = CodebaseSnapshot.total_files b /\
  CodebaseSnapshot.total_lines a = CodebaseSnapshot.total_lines b /\
  CodebaseSnapshot.file_types a = CodebaseSnapshot.file_types b /\
  map (fun f => (FileInfo.path f, FileInfo.content_hash f)) (CodebaseSnapshot.files a)
    ≡ₚ map (fun f => (FileInfo.path f, FileInfo.content_hash f)) (CodebaseSnapshot.files b) /\
  (tree w1 = tree w2 -> CodebaseSnapshot.files a = CodebaseSnapshot.files b).
Proof.
  intros Hroot Hperm. simpl. rewrite <- Hroot.
  assert (Hfs : omap (record_of md5 (project_root s1)) (tree w1)
                ≡ₚ omap (record_of md5 (project_root s1)) (tree w2))
    by (rewrite Hperm; reflexivity).
  repeat split.
  - rewrite !scan_walk_files. apply Permutation_length, Hfs.
  - rewrite !scan_walk_total_lines. rewrite Hfs. reflexivity.
  - apply map_eq. intros c. rewrite !scan_walk_file_types.
    rewrite (category_count_perm c _ _ Hfs). reflexivity.
  - rewrite !scan_walk_files. apply Permutation_map, Hfs.
  - intros ->. reflexivity.
Qed.

Lemma C3_rescan_unchanged_witness :
  let a := fst (scan_codebase Sample.digest
                  (Sample.world [Sample.text_py; Sample.docs_dir; Sample.binary_md])
                  (Sample.server Sample.root)) in
  let b := fst (scan_codebase Sample.digest
                  (Sample.world [Sample.docs_dir; Sample.binary_md; Sample.text_py])
                  (Sample.server Sample.root)) in
  CodebaseSnapshot.total_files a = 2 /\
  CodebaseSnapshot.total_files a = CodebaseSnapshot.total_files b /\
  CodebaseSnapshot.file_types a = CodebaseSnapshot.file_types b.
Proof.
  pose proof (C3_rescan_unchanged Sample.digest
    (Sample.world [Sample.text_py; Sample.docs_dir; Sample.binary_md])
    (Sample.world [Sample.docs_dir; Sample.binary_md; Sample.text_py])
    (Sample.server Sample.root) (Sample.server Sample.root) eq_refl) as H.
  simpl in H.
  destruct H as (H1 & _ & H3 & _).
  - apply (Permutation_cons_append [Sample.docs_dir; Sample.binary_md] Sample.text_py).
  - split; [reflexivity |]. split; [exact H1 | exact H3].
Defined.


Lemma get0_scan_walk md5 root walk c :
  Py.get0 (acc_file_types (scan_walk md5 root walk)) c
  = category_count c (omap (record_of md5 root) walk).
Proof.
  unfold Py.get0. rewrite scan_walk_file_types.
  destruct (category_count _ _); reflexivity.
Qed.



(** ** The ignore test *)

Lemma in_ignore_dirs_true part : In part ignore_dirs -> in_ignore_dirs part = true.
Proof.
  intros H. unfold in_ignore_dirs. apply existsb_exists.
  exists part. split; [exact H | apply String.eqb_refl].
Qed.

Lemma in_ignore_dirs_In part : in_ignore_dirs part = true -> In part ignore_dirs.
Proof.
  unfold in_ignore_dirs. intros H. apply existsb_exists in H.
  destruct H as (x & Hx & Heq). apply String.eqb_eq in Heq. subst x. exact Hx.
Qed.

Lemma ignored_true root e :
  has_ignored_part (abs_parts root e) -> ignored root e = true.
Proof.
  intros (part & Hin & Hign). unfold ignored. apply existsb_exists.
  exists part. split; [exact Hin | apply in_ignore_dirs_true, Hign].
Qed.

Lemma record_of_ignored md5 root e :
  has_ignored_part (abs_parts root e) -> record_of md5 root e = None.
Proof. intros H. unfold record_of. rewrite (ignored_true _ _ H). reflexivity. Qed.

(** C10. The ignore test looks at every part of the absolute path: an
    entry with a part in the ignore set, wherever it is (above the root,
    below it, or the entry's own name), leaves the accumulators as they
    are; hence a root that has such a part among its own gives a
    snapshot with no file, no line and no category. *)
Theorem C10_ignored_root (md5 : string -> string) (w : World) (s : Server)
    (part : string) :
  In part ignore_dirs ->
  (forall (e : Entry) (acc : ScanAcc),
      In part (abs_parts (project_root s) e) ->
      scan_step md5 (project_root s) acc e = acc) /\
  (In part (project_root s) ->
   let snapshot := fst (scan_codebase md5 w s) in
   CodebaseSnapshot.files snapshot = [] /\
   CodebaseSnapshot.total_files snapshot = 0 /\
   CodebaseSnapshot.total_lines snapshot = 0 /\
   CodebaseSnapshot.file_types snapshot = ∅).
Proof.
  intros Hign. split.
  - intros e acc Hin. rewrite scan_step_push, record_of_ignored; [reflexivity |].
    exists part. split; assumption.
  - intros Hroot. simpl.
    assert (Hnone : omap (record_of md5 (project_root s)) (tree w) = []).
    { induction (tree w) as [| e t IH]; [reflexivity |].
      cbn [omap list_omap]. rewrite record_of_ignored; [exact IH |].
      exists part. split; [| exact Hign].
      unfold abs_parts. apply in_or_app. left. exact Hroot. }
    repeat split.
    + rewrite scan_walk_files. exact Hnone.
    + rewrite scan_walk_files, Hnone. reflexivity.
    + rewrite scan_walk_total_lines, Hnone. reflexivity.
    + apply map_eq. intros c. rewrite scan_walk_file_types, Hnone.
      rewrite lookup_empty. reflexivity.
Qed.

Lemma C10_ignored_root_witness :
  CodebaseSnapshot.total_files
    (fst (scan_codebase Sample.digest
            (Sample.world [Sample.text_py; Sample.binary_md])
            (Sample.server ["/"; "srv"; "build"; "project"]))) = 0.
Proof.
  apply (C10_ignored_root Sample.digest
           (Sample.world [Sample.text_py; Sample.binary_md])
           (Sample.server ["/"; "srv"; "build"; "project"]) "build").
  - simpl. tauto.
  - simpl. tauto.
Defined.

(** *** Paths of distinct segment lists print differently *)

Lemma contains_slash_cons c r :
  Py.contains "/" (String c r) = false -> c <> "/"%char /\ Py.contains "/" r = false.
Proof.
  cbn [Py.contains String.prefix]. intros H.
  apply orb_false_iff in H. destruct H as [H1 H2]. split; [| exact H2].
  intros ->. destruct r; discriminate.
Qed.

Lemma append_slash_inj a b x y :
  Py.contains "/" a = false -> Py.contains "/" b = false ->
  String.append a (String "/" x) = String.append b (String "/" y) ->
  a = b /\ x = y.
Proof.
  revert b. induction a as [| c a IH]; intros [| d b] Ha Hb Heq; simpl in Heq.
  - injection Heq as ->. split; reflexivity.
  - injection Heq as <- _. apply contains_slash_cons in Hb. tauto.
  - injection Heq as -> _. apply contains_slash_cons in Ha. tauto.
  - injection Heq as -> Heq.
    apply contains_slash_cons in Ha. apply contains_slash_cons in Hb.
    destruct (IH b) as [-> ->]; tauto.
Qed.

Lemma append_slash_neq a b x :
  Py.contains "/" b = false -> String.append a (String "/" x) <> b.
Proof.
  revert b. induction a as [| c a IH]; intros [| d b] Hb Heq; simpl in Heq;
    try discriminate.
  - injection Heq as <- _. apply contains_slash_cons in Hb. tauto.
  - injection Heq as -> Heq. apply contains_slash_cons in Hb.
    apply (IH b); tauto.
Qed.

Lemma concat_slash_inj l1 l2 :
  Forall is_segment l1 -> Forall is_segment l2 ->
  String.concat "/" l1 = String.concat "/" l2 -> l1 = l2.
Proof.
  intros H1. revert l2. induction H1 as [| a l1 [Ha Has] _ IH]; intros l2 H2 Heq.
  - destruct H2 as [| b l2 [Hb _] _]; [reflexivity |].
    simpl in Heq. destruct l2; [congruence |].
    destruct b; [congruence | discriminate].
  - destruct H2 as [| b l2 [Hb Hbs] H2].
    + simpl in Heq. destruct l1; [congruence |].
      destruct a; [congruence | discriminate].
    + cbn [String.concat] in Heq.
      destruct l1 as [| a' l1], l2 as [| b' l2].
      * congruence.
      * exfalso. symmetry in Heq. revert Heq. apply append_slash_neq, Has.
      * exfalso. revert Heq. apply append_slash_neq, Hbs.
      * apply append_slash_inj in Heq; [| assumption | assumption].
        destruct Heq as [-> Heq]. f_equal. apply IH; assumption.
Qed.

Lemma str_relative parts :
  relative_parts parts -> Path.str parts = String.concat "/" parts.
Proof.
  intros [Hne Hseg]. destruct parts as [| p rest]; [congruence |].
  unfold Path.str. destruct (String.eqb_spec p "/") as [-> | _]; [| reflexivity].
  apply Forall_cons in Hseg. destruct Hseg as [[_ Hp] _]. discriminate.
Qed.

Lemma str_relative_inj l1 l2 :
  relative_parts l1 -> relative_parts l2 ->
  Path.str l1 = Path.str l2 -> l1 = l2.
Proof.
  intros H1 H2. rewrite !str_relative by assumption.
  apply concat_slash_inj; [apply H1 | apply H2].
Qed.

Lemma record_of_Some md5 root e f :
  record_of md5 root e = Some f ->
  FileInfo.path f = Path.str (rel_parts e) /\ ignored root e = false.
Proof.
  unfold record_of. destruct (ignored root e); [discriminate |].
  destruct (negb (is_file e)); [discriminate |].
  destruct (dict_get code_extensions _); [| discriminate].
  destruct (stat e); [| discriminate].
  destruct (read e) as [content | []]; try discriminate;
    intros [= <-]; split; reflexivity.
Qed.

(** C5. An entry with a segment of its tree-relative path in the ignore
    set changes nothing: the scan of a tree holding it returns the very
    snapshot the tree without it gives (files, [total_files],
    [total_lines] and [file_types] alike); and when all relative paths
    of the tree are lists of segments, no record of the snapshot carries
    that entry's path. *)
Theorem C5_ignored_segment (md5 : string -> string) (w : World) (s : Server)
    (pre post : list Entry) (e : Entry) :
  tree w = pre ++ e :: post ->
  has_ignored_part (rel_parts e) ->
  let snapshot := fst (scan_codebase md5 w s) in
  snapshot = fst (scan_codebase md5 (with_tree w (pre ++ post)) s) /\
  (Forall (fun e' => relative_parts (rel_parts e')) (tree w) ->
   forall f, In f (CodebaseSnapshot.files snapshot) ->
             FileInfo.path f <> Path.str (rel_parts e)).
Proof.
  intros Htree (part & Hin & Hign). simpl. split.
  - unfold make_snapshot, scan_walk. cbn [tree now with_tree].
    rewrite Htree, !fold_left_app. cbn [fold_left].
    rewrite (scan_step_push md5 (project_root s) _ e), record_of_ignored;
      [reflexivity |].
    exists part. split; [| exact Hign]. apply in_or_app. right. exact Hin.
  - intros Hwf f Hf Hpath. rewrite scan_walk_files in Hf.
    apply list_elem_of_In, list_elem_of_omap in Hf.
    destruct Hf as (e' & He' & Hrec).
    apply record_of_Some in Hrec. destruct Hrec as [Hp Hnot].
    rewrite Forall_forall in Hwf.
    assert (Heq : rel_parts e' = rel_parts e).
    { apply str_relative_inj.
      - apply Hwf, He'.
      - apply Hwf. rewrite Htree. apply list_elem_of_In, in_elt.
      - congruence. }
    rewrite ignored_true in Hnot; [discriminate |].
    exists part. split; [| exact Hign].
    unfold abs_parts. rewrite Heq. apply in_or_app. right. exact Hin.
Qed.

Lemma C5_ignored_segment_witness :
  let snapshot :=
    fst (scan_codebase Sample.digest
           (Sample.world [Sample.text_py; Sample.vendored_js; Sample.binary_md])
           (Sample.server Sample.root)) in
  map FileInfo.path (CodebaseSnapshot.files snapshot) = ["a.py"; "docs/logo.MD"] /\
  forall f, In f (CodebaseSnapshot.files snapshot) ->
            FileInfo.path f <> "web/node_modules/lib/index.js".
Proof.
  split; [reflexivity |].
  apply (C5_ignored_segment Sample.digest
           (Sample.world [Sample.text_py; Sample.vendored_js; Sample.binary_md])
           (Sample.server Sample.root)
           [Sample.text_py] [Sample.binary_md] Sample.vendored_js eq_refl).
  - exists "node_modules". simpl. tauto.
  - repeat constructor; discriminate.
Defined.

(** ** History *)

#[export] Instance newer_first_total : Total newer_first.
Proof.
  intros a b. unfold newer_first.
  destruct (Qlt_le_dec (SnapshotRow.timestamp a) (SnapshotRow.timestamp b)) as [H | H].
  - right. apply Qlt_le_weak, H.
  - left. exact H.
Qed.

#[export] Instance newer_first_trans : Transitive newer_first.
Proof. intros a b c Hab Hbc. unfold newer_first in *. eapply Qle_trans; eassumption. Qed.

Lemma StronglySorted_take {A} (R : relation A) (l : list A) (n : nat) :
  StronglySorted R l -> StronglySorted R (take n l).
Proof.
  intros H. revert n. induction H as [| x l Hl IH Hx]; intros [| n]; simpl;
    try constructor.
  - apply IH.
  - apply Forall_take, Hx.
Qed.

Lemma after_spec cutoff r :
  after cutoff r = true <-> (cutoff < SnapshotRow.timestamp r)%Q.
Proof.
  unfold after. rewrite negb_true_iff. split.
  - intros H. apply Qnot_le_lt. intros Hle. apply Qle_bool_iff in Hle. congruence.
  - intros H. destruct (Qle_bool _ _) eqn:E; [| reflexivity].
    apply Qle_bool_iff in E. apply Qlt_not_le in H. contradiction.
Qed.

Lemma select_history_elem cutoff d row :
  row ∈ select_history cutoff d ->
  In row (codebase_snapshots d) /\ (cutoff < SnapshotRow.timestamp row)%Q.
Proof.
  unfold select_history. intros H.
  apply (fun H => elem_of_sublist _ _ _ H (sublist_take _ _)) in H.
  rewrite merge_sort_Permutation in H.
  apply list_elem_of_In, filter_In in H. destruct H as [Hin Hafter].
  split; [exact Hin | apply after_spec, Hafter].
Qed.

Lemma select_history_sorted cutoff d :
  StronglySorted newer_first (select_history cutoff d).
Proof.
  unfold select_history. apply StronglySorted_take.
  apply StronglySorted_merge_sort; typeclasses eauto.
Qed.

(** C6. The history route returns, for every stored table and every
    [days] value: only entries read from stored rows whose timestamp is
    strictly greater than now minus [days] days (86400 seconds each); at
    most 100 of them; newest first. *)
Theorem C6_history_bounded (w : World) (s : Server) (arg_days : option Z) :
  let history := fst (get_history w s arg_days) in
  let days := snd (get_history w s arg_days) in
  days = default 7%Z arg_days /\
  (forall h, In h history ->
     (now w - inject_Z (days * 86400) < HistoryEntry.timestamp h)%Q /\
     exists row, In row (codebase_snapshots (db s)) /\ h = history_entry row) /\
  List.length history <= 100 /\
  StronglySorted
    (fun a b => (HistoryEntry.timestamp b <= HistoryEntry.timestamp a)%Q) history.
Proof.
  cbn [get_history fst snd]. set (days := default 7%Z arg_days).
  split; [reflexivity |]. split; [| split].
  - intros h Hh. apply in_map_iff in Hh. destruct Hh as (row & <- & Hrow).
    apply list_elem_of_In, select_history_elem in Hrow.
    destruct Hrow as [Hin Hcut]. split; [| exists row; split; [exact Hin | reflexivity]].
    unfold cutoff_time in Hcut.
    replace (days * 86400)%Z with (days * 24 * 60 * 60)%Z by lia. exact Hcut.
  - rewrite length_map. unfold select_history. rewrite length_take. lia.
  - apply (StronglySorted_fmap history_entry newer_first).
    + intros x y H. exact H.
    + apply select_history_sorted.
Qed.

(** ** Search *)

Lemma slice_inside {A} (l : list A) (a b : Z) :
  (0 <= a <= b)%Z -> (b <= Z.of_nat (List.length l))%Z ->
  Py.slice l a b = take (Z.to_nat (b - a)) (drop (Z.to_nat a) l).
Proof.
  intros Hab Hb. unfold Py.slice, Py.slice_index.
  destruct (Z.ltb_spec a 0), (Z.ltb_spec b 0); try lia.
  rewrite !Z.min_l by lia. reflexivity.
Qed.

Section SearchFacts.

Variable case_sensitive : bool.
Variable search_query : string.

Lemma context_after_spec lines i line :
  i < List.length lines ->
  SearchMatch.context_after (match_entry lines i line) = take 2 (drop (i + 1) lines).
Proof.
  intros Hi. cbn [match_entry SearchMatch.context_after].
  destruct (Z.ltb_spec (Z.of_nat i) (Z.of_nat (List.length lines) - 1)) as [Hlt | Hge].
  - rewrite slice_inside by lia.
    replace (Z.to_nat (Z.of_nat i + 1)) with (i + 1) by lia.
    destruct (Z.min_spec (Z.of_nat (List.length lines)) (Z.of_nat i + 3))
      as [[Hm ->] | [Hm ->]].
    + rewrite !take_ge; [reflexivity | |]; rewrite length_drop; lia.
    + f_equal. lia.
  - rewrite drop_ge by lia. reflexivity.
Qed.

Lemma context_before_spec lines i line :
  i < List.length lines ->
  (i = 0 -> SearchMatch.context_before (match_entry lines i line) = []) /\
  (2 <= i ->
   SearchMatch.context_before (match_entry lines i line) = take 2 (drop (i - 2) lines)) /\
  List.length (SearchMatch.context_before (match_entry lines i line)) <= 2.
Proof.
  intros Hi. cbn [match_entry SearchMatch.context_before].
  destruct (Z.ltb_spec 1 (Z.of_nat i)) as [Hlt | Hge].
  - rewrite slice_inside by lia. rewrite Z.max_r by lia.
    replace (Z.to_nat (Z.of_nat i - (Z.of_nat i - 2))) with 2 by lia.
    replace (Z.to_nat (Z.of_nat i - 2)) with (i - 2) by lia.
    repeat split; [lia | rewrite length_take; lia].
  - repeat split; [lia | simpl; lia].
Qed.

(** Every entry the loop appends is [match_entry] of a matching line
    at its index. *)
Lemma matching_from_In lines i rest m :
  In m (matching_from case_sensitive search_query lines i rest) ->
  exists k line,
    rest !! k = Some line /\
    Py.contains search_query (fold_case case_sensitive line) = true /\
    m = match_entry lines (i + k) line.
Proof.
  revert i. induction rest as [| line rest IH]; intros i Hin; [destruct Hin |].
  cbn [matching_from] in Hin.
  destruct (Py.contains search_query (fold_case case_sensitive line)) eqn:Hc.
  - destruct Hin as [<- | Hin].
    + exists 0, line. rewrite Nat.add_0_r. repeat split. exact Hc.
    + destruct (IH _ Hin) as (k & l & Hk & Hl & ->).
      exists (S k), l. repeat split; [exact Hk | exact Hl | f_equal; lia].
  - destruct (IH _ Hin) as (k & l & Hk & Hl & ->).
    exists (S k), l. repeat split; [exact Hk | exact Hl | f_equal; lia].
Qed.

Lemma matching_from_sorted lines i rest :
  StronglySorted lt
    (map SearchMatch.line_number
       (matching_from case_sensitive search_query lines i rest)) /\
  Forall (fun n => i < n)
    (map SearchMatch.line_number
       (matching_from case_sensitive search_query lines i rest)).
Proof.
  revert i. induction rest as [| line rest IH]; intros i.
  - split; constructor.
  - cbn [matching_from]. destruct (IH (S i)) as [Hs Hf].
    assert (Hf' : Forall (fun n => i < n)
              (map SearchMatch.line_number
                 (matching_from case_sensitive search_query lines (S i) rest))).
    { eapply Forall_impl; [exact Hf |]. intros n Hn. simpl in Hn. lia. }
    destruct (Py.contains search_query (fold_case case_sensitive line)).
    + cbn [map match_entry SearchMatch.line_number]. split.
      * constructor; [exact Hs |].
        eapply Forall_impl; [exact Hf |]. intros n Hn. simpl in Hn. lia.
      * constructor; [lia | exact Hf'].
    + split; [exact Hs | exact Hf'].
Qed.

Lemma search_text_Some file_info content r :
  search_text case_sensitive search_query file_info content = Some r ->
  FileResult.file r = FileInfo.path file_info /\
  FileResult.file_type r = FileInfo.file_type file_info /\
  FileResult.matches r =
    take 10 (matching_lines case_sensitive search_query (Py.splitlines content)) /\
  matching_lines case_sensitive search_query (Py.splitlines content) <> [].
Proof.
  unfold search_text.
  destruct (Py.contains search_query (fold_case case_sensitive content));
    [| discriminate].
  destruct (matching_lines _ _ _) as [| m ms]; [discriminate |].
  intros [= <-]. repeat split. discriminate.
Qed.

Variable w : World.
Variable file_type : option string.

(** A result of the loop was there before or comes from a file of
    the list that passes the filter and reads as text. *)
Lemma search_loop_In files acc out r :
  search_loop case_sensitive search_query w file_type files acc = inr out ->
  In r out ->
  In r acc \/
  exists file_info content,
    In file_info files /\
    filtered_out file_type file_info = false /\
    read_path w (FileInfo.path file_info) = Text content /\
    search_text case_sensitive search_query file_info content = Some r.
Proof.
  revert acc. induction files as [| f files IH]; intros acc Hloop Hr.
  - injection Hloop as <-. left. exact Hr.
  - cbn [search_loop] in Hloop.
    assert (Hlift : forall acc',
      search_loop case_sensitive search_query w file_type files acc' = inr out ->
      (forall x, In x acc' -> In x acc \/
         exists content, filtered_out file_type f = false /\
           read_path w (FileInfo.path f) = Text content /\
           search_text case_sensitive search_query f content = Some x) ->
      In r acc \/
      exists file_info content,
        In file_info (f :: files) /\ filtered_out file_type file_info = false /\
        read_path w (FileInfo.path file_info) = Text content /\
        search_text case_sensitive search_query file_info content = Some r).
    { intros acc' Hl Hacc. destruct (IH acc' Hl Hr) as [Hin | (g & c & Hg & Hrest)].
      - destruct (Hacc r Hin) as [? | (c & Hc)]; [left; assumption |].
        right. exists f, c. split; [left; reflexivity | exact Hc].
      - right. exists g, c. split; [right; exact Hg | exact Hrest]. }
    destruct (filtered_out file_type f) eqn:Hfilt.
    { apply (Hlift acc Hloop). intros x Hx. left. exact Hx. }
    destruct (read_path w (FileInfo.path f)) as [content | e] eqn:Hread.
    + destruct (search_text case_sensitive search_query f content) as [r0 |] eqn:Hst.
      * apply (Hlift _ Hloop). intros x Hx. apply in_app_or in Hx.
        destruct Hx as [Hx | [<- | []]]; [left; exact Hx |].
        right. exists content. repeat split. exact Hst.
      * apply (Hlift acc Hloop). intros x Hx. left. exact Hx.
    + destruct e; try discriminate;
        apply (Hlift acc Hloop); intros x Hx; left; exact Hx.
Qed.

(** The loop ends normally when the only exceptions met are the two
    the [except] clause names. *)
Lemma search_loop_total files acc :
  (forall file_info e,
      In file_info files ->
      filtered_out file_type file_info = false ->
      read_path w (FileInfo.path file_info) = Raises e ->
      e = UnicodeDecodeError \/ e = FileNotFoundError) ->
  exists out, search_loop case_sensitive search_query w file_type files acc = inr out.
Proof.
  revert acc. induction files as [| f files IH]; intros acc Hok.
  - exists acc. reflexivity.
  - cbn [search_loop].
    assert (Hok' : forall file_info e, In file_info files ->
              filtered_out file_type file_info = false ->
              read_path w (FileInfo.path file_info) = Raises e ->
              e = UnicodeDecodeError \/ e = FileNotFoundError)
      by (intros g e Hg; apply Hok; right; exact Hg).
    destruct (filtered_out file_type f) eqn:Hfilt; [apply IH, Hok' |].
    destruct (read_path w (FileInfo.path f)) as [content | e] eqn:Hread.
    + destruct (search_text _ _ f content); apply IH, Hok'.
    + destruct (Hok f e (or_introl eq_refl) Hfilt Hread) as [-> | ->];
        apply IH, Hok'.
Qed.

(** The loop fails only with an exception other than the two caught,
    raised by reading a file that passes the filter. *)
Lemma search_loop_inl files acc e :
  search_loop case_sensitive search_query w file_type files acc = inl e ->
  e <> UnicodeDecodeError /\ e <> FileNotFoundError /\
  exists file_info,
    In file_info files /\
    filtered_out file_type file_info = false /\
    read_path w (FileInfo.path file_info) = Raises e.
Proof.
  revert acc. induction files as [| f files IH]; intros acc Hloop;
    [discriminate |].
  cbn [search_loop] in Hloop.
  assert (Hlift : forall acc',
    search_loop case_sensitive search_query w file_type files acc' = inl e ->
    e <> UnicodeDecodeError /\ e <> FileNotFoundError /\
    exists file_info,
      In file_info (f :: files) /\ filtered_out file_type file_info = false /\
      read_path w (FileInfo.path file_info) = Raises e).
  { intros acc' Hl. destruct (IH acc' Hl) as (H1 & H2 & g & Hg & Hrest).
    repeat split; [exact H1 | exact H2 |].
    exists g. split; [right; exact Hg | exact Hrest]. }
  destruct (filtered_out file_type f) eqn:Hfilt; [apply (Hlift acc Hloop) |].
  destruct (read_path w (FileInfo.path f)) as [content | e0] eqn:Hread.
  - destruct (search_text _ _ f content); eapply Hlift; exact Hloop.
  - destruct e0; try (eapply Hlift; exact Hloop);
      injection Hloop as <-;
      (repeat split; [discriminate | discriminate |]);
      exists f; (split; [left; reflexivity | split; [exact Hfilt | exact Hread]]).
Qed.

(** And it does fail as soon as one file that passes the filter raises
    such an exception. *)
Lemma search_loop_raises files acc file_info e :
  In file_info files ->
  filtered_out file_type file_info = false ->
  read_path w (FileInfo.path file_info) = Raises e ->
  e <> UnicodeDecodeError -> e <> FileNotFoundError ->
  exists e', search_loop case_sensitive search_query w file_type files acc = inl e'.
Proof.
  intros Hin Hfilt Hread Hu Hn. revert acc.
  induction files as [| f files IH]; intros acc; [destruct Hin |].
  cbn [search_loop].
  destruct (filtered_out file_type f) eqn:Hf.
  { destruct Hin as [-> | Hin]; [congruence | apply IH, Hin]. }
  destruct (read_path w (FileInfo.path f)) as [content | e0] eqn:Hr.
  - destruct Hin as [-> | Hin]; [congruence |].
    destruct (search_text _ _ f content); apply IH, Hin.
  - destruct Hin as [-> | Hin].
    + assert (e0 = e) by congruence. subst e0.
      destruct e; try congruence; eexists; reflexivity.
    + destruct e0; try (apply IH, Hin); eexists; reflexivity.
Qed.

End SearchFacts.

Lemma search_content_eq md5 w s args :
  search_content md5 w s args =
  if negb (truthy (Some (request_query args)))
  then (BadRequest "Query parameter required", s)
  else
    match search_loop (request_case_sensitive args) (request_search_query args)
            w (arg_type args)
            (CodebaseSnapshot.files (fst (ensure_snapshot md5 w s))) [] with
    | inl e => (Uncaught e, snd (ensure_snapshot md5 w s))
    | inr results =>
        (Ok {| SearchResponse.query := request_query args;
               SearchResponse.results := results;
               SearchResponse.total_files_searched :=
                 List.length (CodebaseSnapshot.files (fst (ensure_snapshot md5 w s)));
               SearchResponse.files_with_matches := List.length results |},
         snd (ensure_snapshot md5 w s))
    end.
Proof.
  unfold search_content, request_search_query, request_case_sensitive, request_query.
  destruct (negb _); [reflexivity |].
  destruct (ensure_snapshot md5 w s) as [snapshot s']. reflexivity.
Qed.

Lemma search_content_Ok md5 w s args body s' :
  search_content md5 w s args = (Ok body, s') ->
  search_loop (request_case_sensitive args) (request_search_query args)
    w (arg_type args)
    (CodebaseSnapshot.files (fst (ensure_snapshot md5 w s))) []
  = inr (SearchResponse.results body) /\
  SearchResponse.total_files_searched body
  = List.length (CodebaseSnapshot.files (fst (ensure_snapshot md5 w s))) /\
  s' = snd (ensure_snapshot md5 w s).
Proof.
  rewrite search_content_eq. destruct (negb _); [discriminate |].
  destruct (search_loop _ _ _ _ _ _) as [e | results]; [discriminate |].
  intros [= <- <-]. repeat split.
Qed.

Lemma ensure_snapshot_current md5 w s :
  current_snapshot (snd (ensure_snapshot md5 w s))
  = Some (fst (ensure_snapshot md5 w s)).
Proof.
  unfold ensure_snapshot. destruct (current_snapshot s) eqn:E; [exact E | reflexivity].
Qed.

(** C1, as the code has it.  Each result of a search that answers is
    for a file that reads as text, and with [lines] the lines of that
    text: it has between 1 and 10 entries, in strictly ascending
    line-number order; each entry is for a line [lines[i]] that contains
    the needle, with [line_number = i + 1] and the stripped line as
    content; its following context is the next two lines, as far as they
    exist ([lines[i+1 : i+3]]); its preceding context has at most two
    lines, is empty for the first line and is the two lines before it
    ([lines[i-2 : i]]) from the third line on. *)
Theorem C1_search_matches (md5 : string -> string) (w : World) (s s' : Server)
    (args : SearchArgs) (body : SearchResponse.t) (r : FileResult.t) :
  search_content md5 w s args = (Ok body, s') ->
  In r (SearchResponse.results body) ->
  exists content,
    read_path w (FileResult.file r) = Text content /\
    let lines := Py.splitlines content in
    1 <= List.length (FileResult.matches r) <= 10 /\
    StronglySorted lt (map SearchMatch.line_number (FileResult.matches r)) /\
    forall m, In m (FileResult.matches r) ->
      exists i line,
        lines !! i = Some line /\
        Py.contains (request_search_query args)
          (fold_case (request_case_sensitive args) line) = true /\
        SearchMatch.line_number m = i + 1 /\
        SearchMatch.content m = Py.strip line /\
        SearchMatch.context_after m = take 2 (drop (i + 1) lines) /\
        (i = 0 -> SearchMatch.context_before m = []) /\
        (2 <= i -> SearchMatch.context_before m = take 2 (drop (i - 2) lines)) /\
        List.length (SearchMatch.context_before m) <= 2.
Proof.
  intros Hsearch Hr. apply search_content_Ok in Hsearch.
  destruct Hsearch as (Hloop & _ & _).
  destruct (search_loop_In _ _ _ _ _ _ _ _ Hloop Hr)
    as [[] | (f & content & _ & _ & Hread & Htext)].
  apply search_text_Some in Htext. destruct Htext as (Hfile & _ & Hms & Hne).
  exists content. rewrite Hfile. split; [exact Hread |].
  cbn zeta. rewrite Hms.
  set (lines := Py.splitlines content) in *.
  set (all := matching_lines (request_case_sensitive args)
                (request_search_query args) lines) in *.
  split; [| split].
  - rewrite length_take. destruct all; [congruence | cbn [List.length]; lia].
  - rewrite <- firstn_map. apply StronglySorted_take.
    apply (matching_from_sorted _ _ lines 0 lines).
  - intros m Hm.
    apply list_elem_of_In in Hm.
    apply (fun H => elem_of_sublist _ _ _ H (sublist_take _ _)) in Hm.
    apply list_elem_of_In, matching_from_In in Hm.
    destruct Hm as (k & line & Hk & Hc & ->). cbn [Nat.add].
    assert (Hlen : k < List.length lines) by (eapply lookup_lt_Some; exact Hk).
    exists k, line. split; [exact Hk |]. split; [exact Hc |].
    split; [reflexivity |]. split; [reflexivity |].
    split; [apply context_after_spec, Hlen |].
    apply context_before_spec, Hlen.
Qed.

(** C7, as the code has it.  For a query that is not empty: when the
    only exceptions raised by reading the files that pass the type
    filter are [UnicodeDecodeError] and [FileNotFoundError], the search
    answers normally, and every result is for a path that reads as text,
    so that no file whose read raises has an entry; the search fails
    only with an exception other than those two, raised by reading a
    file of the snapshot that passes the filter; and it does fail when
    such a file raises such an exception. *)
Theorem C7_decode_and_missing_skipped (md5 : string -> string) (w : World)
    (s : Server) (args : SearchArgs) :
  request_query args <> EmptyString ->
  let snapshot := fst (ensure_snapshot md5 w s) in
  ((forall file_info e,
       In file_info (CodebaseSnapshot.files snapshot) ->
       filtered_out (arg_type args) file_info = false ->
       read_path w (FileInfo.path file_info) = Raises e ->
       e = UnicodeDecodeError \/ e = FileNotFoundError) ->
   exists body,
     fst (search_content md5 w s args) = Ok body /\
     forall r, In r (SearchResponse.results body) ->
       (exists content, read_path w (FileResult.file r) = Text content) /\
       (forall file_info e,
           read_path w (FileInfo.path file_info) = Raises e ->
           FileResult.file r <> FileInfo.path file_info)) /\
  (forall e,
     fst (search_content md5 w s args) = Uncaught e ->
     e <> UnicodeDecodeError /\ e <> FileNotFoundError /\
     exists file_info,
       In file_info (CodebaseSnapshot.files snapshot) /\
       filtered_out (arg_type args) file_info = false /\
       read_path w (FileInfo.path file_info) = Raises e) /\
  (forall file_info e,
     In file_info (CodebaseSnapshot.files snapshot) ->
     filtered_out (arg_type args) file_info = false ->
     read_path w (FileInfo.path file_info) = Raises e ->
     e <> UnicodeDecodeError -> e <> FileNotFoundError ->
     exists e', fst (search_content md5 w s args) = Uncaught e').
Proof.
  intros Hq snapshot.
  assert (Htruthy : negb (truthy (Some (request_query args))) = false).
  { destruct (request_query args); [congruence | reflexivity]. }
  split; [| split].
  - intros Hok.
    destruct (search_loop_total (request_case_sensitive args)
                (request_search_query args) w (arg_type args) _ [] Hok) as [out Hout].
    rewrite search_content_eq, Htruthy. fold snapshot. rewrite Hout.
    eexists. split; [reflexivity |].
    cbn [SearchResponse.results]. intros r Hr.
    destruct (search_loop_In _ _ _ _ _ _ _ _ Hout Hr)
      as [[] | (f & content & _ & _ & Hread & Htext)].
    apply search_text_Some in Htext. destruct Htext as (Hfile & _).
    rewrite Hfile. split; [exists content; exact Hread |].
    intros g e Hg Heq. rewrite <- Heq in Hg. congruence.
  - intros e. rewrite search_content_eq, Htruthy. fold snapshot.
    destruct (search_loop _ _ _ _ _ _) as [e' | out] eqn:Hloop; [| discriminate].
    cbn [fst]. intros [= ->]. eapply search_loop_inl. exact Hloop.
  - intros f e Hin Hfilt Hread Hu Hn.
    destruct (search_loop_raises (request_case_sensitive args)
                (request_search_query args) w (arg_type args)
                (CodebaseSnapshot.files snapshot) [] f e Hin Hfilt Hread Hu Hn)
      as [e' He'].
    exists e'. rewrite search_content_eq, Htruthy. fold snapshot.
    rewrite He'. reflexivity.
Qed.

(** C9. In every answer of a search, [total_files_searched] is the
    number of files of the whole current snapshot, whatever the type
    filter lets through and whatever could be read. *)
Theorem C9_total_files_searched (md5 : string -> string) (w : World)
    (s s' : Server) (args : SearchArgs) (body : SearchResponse.t) :
  search_content md5 w s args = (Ok body, s') ->
  exists snapshot,
    current_snapshot s' = Some snapshot /\
    (current_snapshot s <> None -> current_snapshot s = Some snapshot) /\
    SearchResponse.total_files_searched body
    = List.length (CodebaseSnapshot.files snapshot).
Proof.
  intros Hsearch. apply search_content_Ok in Hsearch.
  destruct Hsearch as (_ & Htotal & ->).
  exists (fst (ensure_snapshot md5 w s)). split; [| split].
  - apply ensure_snapshot_current.
  - unfold ensure_snapshot. destruct (current_snapshot s); [reflexivity | congruence].
  - exact Htotal.
Qed.

Lemma C1_search_matches_witness :
  let r :=
    {| FileResult.file := "twenty.txt";
       FileResult.file_type := "text";
       FileResult.matches :=
         [ {| SearchMatch.line_number := 5;
              SearchMatch.content := "Q five";
              SearchMatch.context_before := ["l3"; "l4"];
              SearchMatch.context_after := ["l6"; "l7"] |};
           {| SearchMatch.line_number := 12;
              SearchMatch.content := "Q twelve";
              SearchMatch.context_before := ["l10"; "l11"];
              SearchMatch.context_after := ["l13"; "l14"] |} ] |} in
  exists content,
    read_path (Sample.world [Sample.twenty_txt]) (FileResult.file r) = Text content /\
    1 <= List.length (FileResult.matches r) <= 10 /\
    StronglySorted lt (map SearchMatch.line_number (FileResult.matches r)).
Proof.
  intros r.
  destruct (C1_search_matches Sample.digest (Sample.world [Sample.twenty_txt])
              (Sample.server Sample.root)
              (snd (search_content Sample.digest (Sample.world [Sample.twenty_txt])
                      (Sample.server Sample.root) (Sample.ask "q" None)))
              (Sample.ask "q" None)
              {| SearchResponse.query := "q";
                 SearchResponse.results := [r];
                 SearchResponse.total_files_searched := 1;
                 SearchResponse.files_with_matches := 1 |}
              r)
    as (content & Hread & Hlen & Hsorted & _).
  - vm_compute. reflexivity.
  - left. reflexivity.
  - exists content. split; [exact Hread |]. split; [exact Hlen | exact Hsorted].
Defined.

(** A match on the first of five lines has four lines after it and gets
    two of them as following context, not three. *)
Lemma C1_counterexample :
  exists body r m,
    fst (search_content Sample.digest (Sample.world [Sample.notes_txt])
           (Sample.server Sample.root) (Sample.ask "Q" None)) = Ok body /\
    In r (SearchResponse.results body) /\
    In m (FileResult.matches r) /\
    read_path (Sample.world [Sample.notes_txt]) (FileResult.file r)
      = Text (String.concat Sample.nl ["Q"; "b"; "c"; "d"; "e"]) /\
    SearchMatch.line_number m = 1 /\
    SearchMatch.context_after m = ["b"; "c"] /\
    List.length (SearchMatch.context_after m) <> 3.
Proof.
  eexists. eexists. eexists.
  split; [vm_compute; reflexivity |].
  split; [left; reflexivity |].
  split; [left; reflexivity |].
  split; [reflexivity |].
  split; [reflexivity |].
  split; [reflexivity | discriminate].
Qed.

(** A match on the second line has one line before it and gets no
    preceding context. *)
Example second_line_has_no_context_before :
  matching_lines true "Q" ["a"; "Q"; "c"] =
  [ {| SearchMatch.line_number := 2;
       SearchMatch.content := "Q";
       SearchMatch.context_before := [];
       SearchMatch.context_after := ["c"] |} ].
Proof. reflexivity. Qed.

Lemma C7_decode_and_missing_skipped_witness :
  exists body,
    fst (search_content Sample.digest
           (Sample.world [Sample.text_py; Sample.binary_md])
           (Sample.scanned [Sample.text_py; Sample.gone_py; Sample.binary_md])
           (Sample.ask "os" None)) = Ok body /\
    forall r, In r (SearchResponse.results body) ->
      (exists content,
          read_path (Sample.world [Sample.text_py; Sample.binary_md])
            (FileResult.file r) = Text content) /\
      (forall file_info e,
          read_path (Sample.world [Sample.text_py; Sample.binary_md])
            (FileInfo.path file_info) = Raises e ->
          FileResult.file r <> FileInfo.path file_info).
Proof.
  apply (C7_decode_and_missing_skipped Sample.digest
           (Sample.world [Sample.text_py; Sample.binary_md])
           (Sample.scanned [Sample.text_py; Sample.gone_py; Sample.binary_md])
           (Sample.ask "os" None)).
  - discriminate.
  - intros f e [<- | [<- | [<- | []]]] _; vm_compute; intros [= <-]; tauto.
Defined.

(** A file of the snapshot that has since become unreadable for lack of
    permission makes the whole search fail: [PermissionError] is not
    among the exceptions the loop catches. *)
Lemma C7_counterexample :
  let s := Sample.scanned [Sample.text_py; Sample.secret_py] in
  let w := Sample.world [Sample.text_py; Sample.locked_py] in
  (exists snapshot file_info,
      current_snapshot s = Some snapshot /\
      In file_info (CodebaseSnapshot.files snapshot) /\
      read_path w (FileInfo.path file_info) = Raises PermissionError) /\
  fst (search_content Sample.digest w s (Sample.ask "os" None))
  = Uncaught PermissionError.
Proof.
  split.
  - eexists. eexists. split; [reflexivity |].
    split; [right; left; reflexivity | reflexivity].
  - vm_compute. reflexivity.
Qed.

Lemma C9_total_files_searched_witness :
  let body :=
    {| SearchResponse.query := "os";
       SearchResponse.results :=
         [ {| FileResult.file := "a.py";
              FileResult.file_type := "python";
              FileResult.matches :=
                [ {| SearchMatch.line_number := 1;
                     SearchMatch.content := "import os";
                     SearchMatch.context_before := [];
                     SearchMatch.context_after := ["print(os.name)"] |};
                  {| SearchMatch.line_number := 2;
                     SearchMatch.content := "print(os.name)";
                     SearchMatch.context_before := [];
                     SearchMatch.context_after := [] |} ] |} ];
       SearchResponse.total_files_searched := 3;
       SearchResponse.files_with_matches := 1 |} in
  exists snapshot,
    current_snapshot (Sample.scanned [Sample.text_py; Sample.gone_py; Sample.binary_md])
      = Some snapshot /\
    List.length (List.filter
                   (fun f => negb (filtered_out (Some "python") f))
                   (CodebaseSnapshot.files snapshot)) = 2 /\
    SearchResponse.total_files_searched body
      = List.length (CodebaseSnapshot.files snapshot).
Proof.
  intros body.
  destruct (C9_total_files_searched Sample.digest
              (Sample.world [Sample.text_py; Sample.binary_md])
              (Sample.scanned [Sample.text_py; Sample.gone_py; Sample.binary_md])
              (Sample.scanned [Sample.text_py; Sample.gone_py; Sample.binary_md])
              (Sample.ask "os" (Some "python")) body)
    as (snapshot & Hcur & Hsame & Htotal).
  - vm_compute. reflexivity.
  - exists snapshot. split; [exact Hcur |]. split; [| exact Htotal].
    assert (Hs : current_snapshot
                   (Sample.scanned [Sample.text_py; Sample.gone_py; Sample.binary_md])
                 = Some snapshot) by exact Hcur.
    injection Hs as <-. reflexivity.
Defined.

(** The history of a table with one row older than the window. *)
Example history_of_four_rows :
  map HistoryEntry.timestamp
    (fst (get_history
            {| tree := []; now := 1000000; git_head := None; db_writable := true |}
            {| project_root := Sample.root; current_snapshot := None;
               db := {| codebase_snapshots :=
                          [Sample.row 100; Sample.row 500000;
                           Sample.row 900000; Sample.row 700000];
                        file_snapshots := [] |} |}
            None))
  = [900000%Q; 700000%Q; 500000%Q].
Proof. reflexivity. Qed.

(** * Further properties *)

(** ** Scanner: where records come from and what is passed over *)

Lemma record_of_inv md5 root e f :
  record_of md5 root e = Some f ->
  exists st,
    ignored root e = false /\ is_file e = true /\
    dict_get code_extensions (Py.lower (Path.suffix (abs_parts root e)))
      = Some (FileInfo.file_type f) /\
    stat e = Some st /\
    FileInfo.path f = Path.str (rel_parts e) /\
    FileInfo.size f = st_size st /\
    FileInfo.modified f = st_mtime st /\
    ((exists content,
         read e = Text content /\
         FileInfo.content_hash f = md5 content /\
         FileInfo.lines f = List.length (Py.splitlines content)) \/
     (read e = Raises UnicodeDecodeError /\
      FileInfo.content_hash f = md5 (Path.str (abs_parts root e)) /\
      FileInfo.lines f = 0)).
Proof.
  unfold record_of. destruct (ignored root e); [discriminate |].
  destruct (is_file e); [| discriminate]. cbn [negb].
  destruct (dict_get code_extensions _) as [ft |]; [| discriminate].
  destruct (stat e) as [st |]; [| discriminate].
  destruct (read e) as [content | []]; try discriminate;
    intros [= <-]; exists st; cbn; repeat split.
  - left. exists content. repeat split.
  - right. repeat split.
Qed.

Lemma dict_get_In d k v : dict_get d k = Some v -> In (k, v) d.
Proof.
  induction d as [| [k' v'] d IH]; [discriminate |]. cbn [dict_get].
  destruct (String.eqb_spec k k') as [-> | _].
  - intros [= ->]. left. reflexivity.
  - intros H. right. apply IH, H.
Qed.

(** X1. Every record of a scanned snapshot comes from an entry of the
    tree that passes the ignore test, is a regular file whose lowercased
    suffix is a key of the extension table, and has readable metadata.
    The record's category is the table's value for that suffix, its path
    is the entry's relative path, its size and time are those of
    [stat]; and either the content decoded, the digest is that of the
    text and [lines] is the number of its lines, or decoding failed, the
    digest is that of the absolute path and [lines] is 0. *)
Theorem X1_record_provenance (md5 : string -> string) (w : World) (s : Server)
    (f : FileInfo.t) :
  In f (CodebaseSnapshot.files (fst (scan_codebase md5 w s))) ->
  exists e st,
    In e (tree w) /\
    ignored (project_root s) e = false /\ is_file e = true /\
    dict_get code_extensions
      (Py.lower (Path.suffix (abs_parts (project_root s) e)))
      = Some (FileInfo.file_type f) /\
    stat e = Some st /\
    FileInfo.path f = Path.str (rel_parts e) /\
    FileInfo.size f = st_size st /\
    FileInfo.modified f = st_mtime st /\
    ((exists content,
         read e = Text content /\
         FileInfo.content_hash f = md5 content /\
         FileInfo.lines f = List.length (Py.splitlines content)) \/
     (read e = Raises UnicodeDecodeError /\
      FileInfo.content_hash f = md5 (Path.str (abs_parts (project_root s) e)) /\
      FileInfo.lines f = 0)).
Proof.
  cbn [scan_codebase fst make_snapshot CodebaseSnapshot.files].
  rewrite scan_walk_files. intros Hf.
  apply list_elem_of_In, list_elem_of_omap in Hf.
  destruct Hf as (e & He & Hrec). apply record_of_inv in Hrec.
  destruct Hrec as (st & Hrest).
  exists e, st. split; [apply list_elem_of_In, He | exact Hrest].
Qed.

Lemma X1_record_provenance_witness :
  exists e st,
    In e [Sample.text_py; Sample.docs_dir; Sample.binary_md] /\
    read e = Raises UnicodeDecodeError /\
    stat e = Some st /\ st_size st = 12 /\
    Path.str (rel_parts e) = "docs/logo.MD".
Proof.
  destruct (X1_record_provenance Sample.digest
              (Sample.world [Sample.text_py; Sample.docs_dir; Sample.binary_md])
              (Sample.server Sample.root)
              {| FileInfo.path := "docs/logo.MD";
                 FileInfo.size := 12;
                 FileInfo.modified := 100;
                 FileInfo.content_hash := Sample.digest "/home/dev/project/docs/logo.MD";
                 FileInfo.file_type := "markdown";
                 FileInfo.lines := 0 |})
    as (e & st & Hin & _ & _ & _ & Hst & Hpath & Hsize & _ & Hread).
  - right. left. reflexivity.
  - exists e, st. cbn in Hin, Hpath, Hsize.
    split; [exact Hin |]. split.
    + destruct Hin as [<- | [<- | [<- | []]]]; try discriminate. reflexivity.
    + split; [exact Hst |]. split; [symmetry; exact Hsize | symmetry; exact Hpath].
Defined.



Lemma category_count_le c fs : category_count c fs <= List.length fs.
Proof.
  unfold category_count. rewrite <- (length_map FileInfo.file_type fs).
  apply count_occ_bound.
Qed.

Lemma category_count_pos c fs :
  0 < category_count c fs -> exists f, In f fs /\ FileInfo.file_type f = c.
Proof.
  unfold category_count. intros H. apply count_occ_In in H.
  apply in_map_iff in H. destruct H as (f & Hf & Hin). exists f. split; assumption.
Qed.

(** X3. A key of a scanned snapshot's [file_types] is a category of the
    extension table, and its count is at least 1 and at most
    [total_files]. *)
Theorem X3_file_types_keys (md5 : string -> string) (w : World) (s : Server)
    (c : string) (n : nat) :
  CodebaseSnapshot.file_types (fst (scan_codebase md5 w s)) !! c = Some n ->
  1 <= n <= CodebaseSnapshot.total_files (fst (scan_codebase md5 w s)) /\
  exists ext, In (ext, c) code_extensions.
Proof.
  cbn [scan_codebase fst make_snapshot CodebaseSnapshot.file_types
       CodebaseSnapshot.total_files].
  rewrite scan_walk_file_types, scan_walk_files.
  pose proof (category_count_le c (omap (record_of md5 (project_root s)) (tree w))) as Hle.
  pose proof (category_count_pos c (omap (record_of md5 (project_root s)) (tree w))) as Hpos.
  destruct (category_count c _) as [| k]; [discriminate |].
  intros [= <-]. split; [lia |].
  destruct Hpos as (f & Hf & Hc); [lia |].
  apply list_elem_of_In, list_elem_of_omap in Hf. destruct Hf as (e & _ & Hrec).
  apply record_of_inv in Hrec. destruct Hrec as (st & _ & _ & Hext & _).
  rewrite Hc in Hext. eexists. apply dict_get_In, Hext.
Qed.

Lemma X3_file_types_keys_witness :
  1 <= 1 <= CodebaseSnapshot.total_files
             (fst (scan_codebase Sample.digest
                     (Sample.world [Sample.text_py; Sample.binary_md])
                     (Sample.server Sample.root))) /\
  exists ext, In (ext, "markdown") code_extensions.
Proof.
  apply (X3_file_types_keys Sample.digest
           (Sample.world [Sample.text_py; Sample.binary_md])
           (Sample.server Sample.root) "markdown" 1).
  vm_compute. reflexivity.
Defined.

(** ** History: what the window keeps *)

Lemma select_history_complete cutoff d row :
  In row (codebase_snapshots d) ->
  (cutoff < SnapshotRow.timestamp row)%Q ->
  row ∈ select_history cutoff d \/
  (List.length (select_history cutoff d) = 100 /\
   forall r, r ∈ select_history cutoff d -> newer_first r row).
Proof.
  intros Hin Hcut. unfold select_history.
  set (l := merge_sort newer_first
              (List.filter (after cutoff) (codebase_snapshots d))).
  assert (Hrow : row ∈ l).
  { unfold l. rewrite merge_sort_Permutation.
    apply list_elem_of_In, filter_In. split; [exact Hin | apply after_spec, Hcut]. }
  assert (Hsorted : StronglySorted newer_first (take 100 l ++ drop 100 l)).
  { rewrite take_drop. apply StronglySorted_merge_sort; typeclasses eauto. }
  rewrite <- (take_drop 100 l) in Hrow. apply elem_of_app in Hrow.
  destruct Hrow as [Hrow | Hrow]; [left; exact Hrow | right].
  split.
  - rewrite length_take. apply list_elem_of_In in Hrow.
    assert (List.length (drop 100 l) <> 0) by (destruct (drop 100 l); [destruct Hrow | discriminate]).
    rewrite length_drop in H. lia.
  - intros r Hr. eapply StronglySorted_app_1_elem_of; eassumption.
Qed.

(** X4. The history window keeps the newest rows: every stored row
    whose timestamp is after the cutoff is either in the answer or left
    out in favour of 100 entries that are each at least as new. *)
Theorem X4_history_keeps_newest (w : World) (s : Server) (arg_days : option Z)
    (row : SnapshotRow.t) :
  In row (codebase_snapshots (db s)) ->
  (cutoff_time w (default 7%Z arg_days) < SnapshotRow.timestamp row)%Q ->
  let history := fst (get_history w s arg_days) in
  In (history_entry row) history \/
  (List.length history = 100 /\
   forall h, In h history ->
     (SnapshotRow.timestamp row <= HistoryEntry.timestamp h)%Q).
Proof.
  intros Hin Hcut. cbn [get_history fst].
  destruct (select_history_complete _ _ _ Hin Hcut) as [Hrow | [Hlen Hmax]].
  - left. apply in_map, list_elem_of_In, Hrow.
  - right. split; [rewrite length_map; exact Hlen |].
    intros h Hh. apply in_map_iff in Hh. destruct Hh as (r & <- & Hr).
    apply (Hmax r), list_elem_of_In, Hr.
Qed.

Lemma X4_history_keeps_newest_witness :
  let s := {| project_root := Sample.root; current_snapshot := None;
              db := {| codebase_snapshots :=
                         [Sample.row 100; Sample.row 500000; Sample.row 900000];
                       file_snapshots := [] |} |} in
  let w := {| tree := []; now := 1000000; git_head := None; db_writable := true |} in
  In (history_entry (Sample.row 500000)) (fst (get_history w s None)) \/
  (List.length (fst (get_history w s None)) = 100 /\
   forall h, In h (fst (get_history w s None)) ->
     (SnapshotRow.timestamp (Sample.row 500000) <= HistoryEntry.timestamp h)%Q).
Proof.
  intros s w. apply (X4_history_keeps_newest w s None (Sample.row 500000)).
  - right. left. reflexivity.
  - reflexivity.
Defined.

Lemma merge_sort_head_newest (l : list SnapshotRow.t) (x : SnapshotRow.t) :
  x ∈ l ->
  (forall y, y ∈ l -> y = x \/ (SnapshotRow.timestamp y < SnapshotRow.timestamp x)%Q) ->
  exists t, merge_sort newer_first l = x :: t.
Proof.
  intros Hx Hmax.
  assert (Hsorted : StronglySorted newer_first (merge_sort newer_first l))
    by (apply StronglySorted_merge_sort; typeclasses eauto).
  assert (Hperm := merge_sort_Permutation newer_first l).
  destruct (merge_sort newer_first l) as [| h t].
  - rewrite <- Hperm in Hx. inversion Hx.
  - exists t. f_equal.
    assert (Hh : h ∈ l) by (rewrite <- Hperm; left).
    destruct (Hmax h Hh) as [-> | Hlt]; [reflexivity | exfalso].
    rewrite <- Hperm in Hx. apply elem_of_cons in Hx.
    destruct Hx as [-> | Hx].
    + revert Hlt. apply Qlt_irrefl.
    + apply StronglySorted_cons in Hsorted. destruct Hsorted as [Hall _].
      rewrite Forall_forall in Hall. specialize (Hall x Hx).
      unfold newer_first in Hall. apply Qle_not_lt in Hall. contradiction.
Qed.

(** X5. A scan whose snapshot is saved shows up first in the history:
    when the database accepts the inserts, every row stored before is
    strictly older than the scan, and the scan is inside the queried
    window, the first history entry is the summary of that snapshot with
    the git commit of the scan. *)
Theorem X5_scan_heads_history (md5 : string -> string) (w w' : World) (s : Server)
    (arg_days : option Z) :
  db_writable w = true ->
  (forall row, In row (codebase_snapshots (db s)) ->
               (SnapshotRow.timestamp row < now w)%Q) ->
  (cutoff_time w' (default 7%Z arg_days) < now w)%Q ->
  let snapshot := fst (scan_codebase md5 w s) in
  exists rest,
    fst (get_history w' (snd (scan_codebase md5 w s)) arg_days) =
    {| HistoryEntry.timestamp := now w;
       HistoryEntry.total_files := CodebaseSnapshot.total_files snapshot;
       HistoryEntry.total_lines := CodebaseSnapshot.total_lines snapshot;
       HistoryEntry.file_types := CodebaseSnapshot.file_types snapshot;
       HistoryEntry.git_commit := git_head w |} :: rest.
Proof.
  intros Hdb Hold Hcut.
  cbn [scan_codebase fst snd get_history db]. unfold save_snapshot. rewrite Hdb.
  unfold select_history. cbn [codebase_snapshots].
  set (snapshot := make_snapshot md5 (project_root s) w).
  set (new := {| SnapshotRow.timestamp := CodebaseSnapshot.timestamp snapshot;
                 SnapshotRow.total_files := CodebaseSnapshot.total_files snapshot;
                 SnapshotRow.total_lines := CodebaseSnapshot.total_lines snapshot;
                 SnapshotRow.file_types := Some (CodebaseSnapshot.file_types snapshot);
                 SnapshotRow.git_commit := git_head w |}).
  set (cutoff := cutoff_time w' (default 7%Z arg_days)) in *.
  destruct (merge_sort_head_newest
              (List.filter (after cutoff) (codebase_snapshots (db s) ++ [new])) new)
    as [t Ht].
  - apply list_elem_of_In, filter_In. split.
    + apply in_or_app. right. left. reflexivity.
    + apply after_spec. exact Hcut.
  - intros y Hy. apply list_elem_of_In, filter_In in Hy. destruct Hy as [Hy _].
    apply in_app_or in Hy. destruct Hy as [Hy | [<- | []]].
    + right. apply Hold, Hy.
    + left. reflexivity.
  - rewrite Ht. cbn [take map]. eexists. reflexivity.
Qed.

Lemma X5_scan_heads_history_witness :
  exists rest,
    map HistoryEntry.timestamp
      (fst (get_history (Sample.world [])
              (snd (scan_codebase Sample.digest
                      (Sample.world [Sample.text_py; Sample.binary_md])
                      (Sample.server Sample.root)))
              (Some 1%Z)))
    = 1000%Q :: rest.
Proof.
  destruct (X5_scan_heads_history Sample.digest
              (Sample.world [Sample.text_py; Sample.binary_md]) (Sample.world [])
              (Sample.server Sample.root) (Some 1%Z)) as [rest Hrest].
  - reflexivity.
  - intros row [].
  - reflexivity.
  - exists (map HistoryEntry.timestamp rest). rewrite Hrest. reflexivity.
Defined.

(** ** Search: requests *)

Lemma lstrip_blank s : blank s = true -> Py.lstrip s = EmptyString.
Proof.
  induction s as [| c r IH]; [reflexivity |]. cbn [blank Py.lstrip].
  intros H. apply andb_true_iff in H. destruct H as [Hc Hr].
  rewrite Hc. apply IH, Hr.
Qed.

Lemma lstrip_not_blank s :
  blank s = false ->
  exists c r, Py.lstrip s = String c r /\ Py.isspace c = false.
Proof.
  induction s as [| c r IH]; [discriminate |]. cbn [blank Py.lstrip].
  destruct (Py.isspace c) eqn:Hc; cbn [andb].
  - exact IH.
  - intros _. exists c, r. split; [reflexivity | exact Hc].
Qed.

Lemma rstrip_head c r :
  Py.isspace c = false -> exists r', Py.rstrip (String c r) = String c r'.
Proof.
  intros Hc. cbn [Py.rstrip]. rewrite Hc.
  destruct (Py.rstrip r); eexists; reflexivity.
Qed.

Lemma strip_blank s : Py.strip s = EmptyString <-> blank s = true.
Proof.
  unfold Py.strip. split.
  - intros H. destruct (blank s) eqn:Hb; [reflexivity |].
    destruct (lstrip_not_blank s Hb) as (c & r & Hl & Hc).
    rewrite Hl in H. destruct (rstrip_head c r Hc) as [r' Hr']. congruence.
  - intros H. rewrite (lstrip_blank s H). reflexivity.
Qed.

(** X6. A search whose [q] is missing, empty or made of whitespace only
    is answered with the 400 'Query parameter required', without a
    bootstrap scan and with the server left as it is; every other query
    gets past that check. *)
Theorem X6_blank_query_rejected (md5 : string -> string) (w : World) (s : Server)
    (args : SearchArgs) :
  (blank (default EmptyString (arg_q args)) = true <->
   fst (search_content md5 w s args) = BadRequest "Query parameter required") /\
  (fst (search_content md5 w s args) = BadRequest "Query parameter required" ->
   snd (search_content md5 w s args) = s) /\
  (forall error, fst (search_content md5 w s args) = BadRequest error ->
                 error = "Query parameter required").
Proof.
  rewrite search_content_eq.
  destruct (request_query args) as [| c r] eqn:Hq; cbn [truthy negb].
  - cbn [fst snd]. split; [| split].
    + split; [reflexivity | intros _; apply strip_blank, Hq].
    + reflexivity.
    + intros error [= <-]. reflexivity.
  - assert (Hb : blank (default EmptyString (arg_q args)) = false).
    { destruct (blank _) eqn:Hb; [| reflexivity].
      apply strip_blank in Hb. unfold request_query in Hq. congruence. }
    destruct (search_loop _ _ _ _ _ _); cbn [fst snd]; rewrite Hb;
      (split; [split; discriminate | split; discriminate]).
Qed.

(** ** Search: results *)

Section SearchShape.

Variable case_sensitive : bool.
Variable search_query : string.
Variable w : World.
Variable file_type : option string.

(** A result stands for a file: same path and category, the file passes
    the filter and reads as a text that gives this result. *)
Definition result_of (r : FileResult.t) (f : FileInfo.t) : Prop :=
  FileResult.file r = FileInfo.path f /\
  FileResult.file_type r = FileInfo.file_type f /\
  filtered_out file_type f = false /\
  exists content,
    read_path w (FileInfo.path f) = Text content /\
    search_text case_sensitive search_query f content = Some r.

Lemma search_loop_shape files acc out :
  search_loop case_sensitive search_query w file_type files acc = inr out ->
  exists rs fs,
    out = acc ++ rs /\ fs `sublist_of` files /\ Forall2 result_of rs fs.
Proof.
  revert acc. induction files as [| f files IH]; intros acc Hloop.
  - injection Hloop as <-. exists [], []. rewrite app_nil_r.
    repeat split; constructor.
  - cbn [search_loop] in Hloop.
    assert (Hskip : forall acc',
      acc' = acc ->
      search_loop case_sensitive search_query w file_type files acc' = inr out ->
      exists rs fs,
        out = acc ++ rs /\ fs `sublist_of` (f :: files) /\ Forall2 result_of rs fs).
    { intros acc' -> Hl. destruct (IH _ Hl) as (rs & fs & -> & Hsub & Hall).
      exists rs, fs. repeat split; [| exact Hall]. apply sublist_cons, Hsub. }
    destruct (filtered_out file_type f) eqn:Hfilt; [apply (Hskip acc eq_refl Hloop) |].
    destruct (read_path w (FileInfo.path f)) as [content | e] eqn:Hread.
    + destruct (search_text case_sensitive search_query f content) as [r |] eqn:Hst;
        [| apply (Hskip acc eq_refl Hloop)].
      destruct (IH _ Hloop) as (rs & fs & -> & Hsub & Hall).
      exists (r :: rs), (f :: fs). rewrite <- app_assoc. split; [reflexivity |].
      split; [apply sublist_skip, Hsub |]. constructor; [| exact Hall].
      pose proof (search_text_Some _ _ _ _ _ Hst) as (Hfile & Htype & _).
      repeat split; try assumption. exists content. split; assumption.
    + destruct e; try discriminate; apply (Hskip acc eq_refl Hloop).
Qed.

End SearchShape.

(** X7. In an answer of a search, the results stand, in snapshot order,
    for files of the current snapshot, each at most once per listing:
    their paths and categories are those of a sublist of the snapshot's
    files; with a non-empty [type] parameter every result has that
    category; [files_with_matches] is the number of results and never
    exceeds [total_files_searched]; and [query] echoes the stripped
    [q]. *)
Theorem X7_results_follow_snapshot (md5 : string -> string) (w : World)
    (s s' : Server) (args : SearchArgs) (body : SearchResponse.t) :
  search_content md5 w s args = (Ok body, s') ->
  (exists fs,
      fs `sublist_of` CodebaseSnapshot.files (fst (ensure_snapshot md5 w s)) /\
      map FileResult.file (SearchResponse.results body) = map FileInfo.path fs /\
      map FileResult.file_type (SearchResponse.results body)
        = map FileInfo.file_type fs) /\
  (truthy (arg_type args) = true ->
   forall r, In r (SearchResponse.results body) ->
             arg_type args = Some (FileResult.file_type r)) /\
  SearchResponse.files_with_matches body
    = List.length (SearchResponse.results body) /\
  SearchResponse.files_with_matches body
    <= SearchResponse.total_files_searched body /\
  SearchResponse.query body = request_query args.
Proof.
  rewrite search_content_eq. destruct (negb _); [discriminate |].
  destruct (search_loop _ _ _ _ _ _) as [e | results] eqn:Hloop; [discriminate |].
  intros [= <- <-]. cbn.
  destruct (search_loop_shape _ _ _ _ _ _ _ Hloop) as (rs & fs & -> & Hsub & Hall).
  cbn [app] in *.
  assert (Hlen : List.length rs = List.length fs) by (eapply Forall2_length; exact Hall).
  split; [| split; [| split; [| split]]].
  - exists fs. split; [exact Hsub |].
    clear Hsub Hloop Hlen. induction Hall as [| r f rs fs (Hf & Ht & _) _ IH];
      [split; reflexivity |].
    destruct IH as [IH1 IH2]. cbn [map]. rewrite Hf, Ht, IH1, IH2. split; reflexivity.
  - intros Htruthy r Hr.
    apply list_elem_of_In in Hr.
    apply list_elem_of_lookup in Hr. destruct Hr as [i Hi].
    destruct (Forall2_lookup_l _ _ _ i r Hall Hi) as (f & _ & _ & Ht & Hfilt & _).
    unfold filtered_out in Hfilt. rewrite Htruthy in Hfilt. cbn [andb] in Hfilt.
    apply negb_false_iff, String.eqb_eq in Hfilt.
    destruct (arg_type args) as [t |]; [| discriminate]. cbn in Hfilt. congruence.
  - reflexivity.
  - rewrite Hlen. apply sublist_length, Hsub.
  - reflexivity.
Qed.

Lemma X7_results_follow_snapshot_witness :
  let body :=
    {| SearchResponse.query := "os";
       SearchResponse.results :=
         [ {| FileResult.file := "a.py";
              FileResult.file_type := "python";
              FileResult.matches :=
                [ {| SearchMatch.line_number := 1;
                     SearchMatch.content := "import os";
                     SearchMatch.context_before := [];
                     SearchMatch.context_after := ["print(os.name)"] |};
                  {| SearchMatch.line_number := 2;
                     SearchMatch.content := "print(os.name)";
                     SearchMatch.context_before := [];
                     SearchMatch.context_after := [] |} ] |} ];
       SearchResponse.total_files_searched := 3;
       SearchResponse.files_with_matches := 1 |} in
  exists fs,
    fs `sublist_of`
      CodebaseSnapshot.files
        (fst (ensure_snapshot Sample.digest
                (Sample.world [Sample.text_py; Sample.binary_md])
                (Sample.scanned [Sample.text_py; Sample.gone_py; Sample.binary_md]))) /\
    map FileResult.file (SearchResponse.results body) = map FileInfo.path fs.
Proof.
  intros body.
  destruct (X7_results_follow_snapshot Sample.digest
              (Sample.world [Sample.text_py; Sample.binary_md])
              (Sample.scanned [Sample.text_py; Sample.gone_py; Sample.binary_md])
              (Sample.scanned [Sample.text_py; Sample.gone_py; Sample.binary_md])
              (Sample.ask "os" (Some "python")) body)
    as ((fs & Hsub & Hfiles & _) & _).
  - vm_compute. reflexivity.
  - exists fs. split; [exact Hsub | exact Hfiles].
Defined.

(** ** Strings: substrings, lines and case *)

Lemma append_cons c a b :
  String.append (String c a) b = String c (String.append a b).
Proof. reflexivity. Qed.

Lemma append_nil b : String.append EmptyString b = b.
Proof. reflexivity. Qed.

Lemma prefix_spec p s :
  String.prefix p s = true <-> exists b, s = String.append p b.
Proof.
  revert s. induction p as [| c p IH]; intros s.
  - split; [intros _; exists s; reflexivity | intros _; destruct s; reflexivity].
  - destruct s as [| d s]; cbn [String.prefix].
    + split; [discriminate | intros [b Hb]; discriminate].
    + destruct (Ascii.ascii_dec c d) as [-> | Hne].
      * rewrite IH. split; intros [b Hb]; exists b.
        -- rewrite append_cons, Hb. reflexivity.
        -- rewrite append_cons in Hb. congruence.
      * split; [discriminate | intros [b Hb]; rewrite append_cons in Hb; congruence].
Qed.

Lemma contains_spec n h :
  Py.contains n h = true <->
  exists a b, h = String.append a (String.append n b).
Proof.
  induction h as [| c h IH]; cbn [Py.contains]; rewrite orb_true_iff, prefix_spec.
  - split.
    + intros [[b Hb] | H]; [exists EmptyString, b; exact Hb | discriminate].
    + intros (a & b & H). left. destruct a; [exists b; exact H | discriminate].
  - rewrite IH. split.
    + intros [[b Hb] | (a & b & H)].
      * exists EmptyString, b. exact Hb.
      * exists (String c a), b. rewrite append_cons. congruence.
    + intros ([| d a] & b & H).
      * left. exists b. exact H.
      * right. rewrite append_cons in H. injection H as -> H.
        exists a, b. exact H.
Qed.

Lemma append_assoc a b c :
  String.append (String.append a b) c = String.append a (String.append b c).
Proof.
  induction a as [| x a IH]; [reflexivity |].
  rewrite !append_cons, IH. reflexivity.
Qed.

Lemma contains_inside n x a b :
  Py.contains n x = true ->
  Py.contains n (String.append a (String.append x b)) = true.
Proof.
  rewrite !contains_spec. intros (u & v & ->).
  exists (String.append a u), (String.append v b).
  rewrite !append_assoc. reflexivity.
Qed.

Lemma lower_append a b :
  Py.lower (String.append a b) = String.append (Py.lower a) (Py.lower b).
Proof.
  induction a as [| x a IH]; [reflexivity |].
  rewrite append_cons. cbn [Py.lower]. rewrite append_cons, IH. reflexivity.
Qed.


Lemma splitlines_head_prefix s l ls :
  Py.splitlines s = l :: ls -> exists b, s = String.append l b.
Proof.
  revert l ls. induction s as [| c r IH]; intros l ls; [discriminate |].
  cbn [Py.splitlines]. destruct (Py.is_line_boundary c).
  - intros [= <- _]. exists (String c r). reflexivity.
  - destruct (Py.splitlines r) as [| l' ls'] eqn:E.
    + intros [= <- _]. exists r. reflexivity.
    + intros [= <- _]. destruct (IH l' ls' eq_refl) as [b ->].
      exists b. reflexivity.
Qed.

Lemma splitlines_substring_upto n :
  forall s, String.length s <= n ->
  forall line, In line (Py.splitlines s) ->
  exists a b, s = String.append a (String.append line b).
Proof.
  induction n as [| n IH]; intros [| c r] Hlen line Hin;
    try (destruct Hin; fail); cbn [String.length] in Hlen; [lia |].
  cbn [Py.splitlines] in Hin.
  assert (Htail : forall t, String.length t <= n ->
            In line (Py.splitlines t) ->
            forall pre, String c r = String.append pre t ->
            exists a b, String c r = String.append a (String.append line b)).
  { intros t Ht Hl pre ->. destruct (IH t Ht line Hl) as (a & b & ->).
    exists (String.append pre a), b. rewrite append_assoc. reflexivity. }
  destruct (Py.is_line_boundary c).
  - destruct Hin as [<- | Hin]; [exists EmptyString, (String c r); reflexivity |].
    destruct r as [| c' r'].
    + destruct Hin.
    + destruct ((Py.code c =? 13) && (Py.code c' =? 10)).
      * apply (Htail r') with (pre := String c (String c' EmptyString));
          [cbn [String.length] in Hlen; lia | exact Hin | reflexivity].
      * apply (Htail (String c' r')) with (pre := String c EmptyString);
          [lia | exact Hin | reflexivity].
  - destruct (Py.splitlines r) as [| l ls] eqn:E.
    + destruct Hin as [<- | []]. exists EmptyString, r. reflexivity.
    + destruct Hin as [<- | Hin].
      * destruct (splitlines_head_prefix r l ls E) as [b ->].
        exists EmptyString, b. reflexivity.
      * apply (Htail r) with (pre := String c EmptyString);
          [lia | rewrite E; right; exact Hin | reflexivity].
Qed.

Lemma splitlines_substring s line :
  In line (Py.splitlines s) ->
  exists a b, s = String.append a (String.append line b).
Proof. apply (splitlines_substring_upto (String.length s)). lia. Qed.

(** ** Search: nothing that matches is lost *)

Section SearchComplete.

Variable case_sensitive : bool.
Variable search_query : string.

Lemma matching_from_complete lines i rest k line :
  rest !! k = Some line ->
  Py.contains search_query (fold_case case_sensitive line) = true ->
  In (match_entry lines (i + k) line)
     (matching_from case_sensitive search_query lines i rest).
Proof.
  revert i k. induction rest as [| l rest IH]; intros i k Hk Hc; [discriminate |].
  cbn [matching_from]. destruct k as [| k].
  - injection Hk as ->. rewrite Hc, Nat.add_0_r. left. reflexivity.
  - cbn in Hk. specialize (IH (S i) k Hk Hc).
    replace (i + S k) with (S i + k) by lia.
    destruct (Py.contains search_query (fold_case case_sensitive l));
      [right |]; exact IH.
Qed.

Lemma fold_case_contains_inside x a b :
  Py.contains search_query (fold_case case_sensitive x) = true ->
  Py.contains search_query
    (fold_case case_sensitive (String.append a (String.append x b))) = true.
Proof.
  unfold fold_case. destruct case_sensitive.
  - apply contains_inside.
  - rewrite !lower_append. apply contains_inside.
Qed.

(** A file with a matching line yields a result. *)
Lemma search_text_complete file_info content line :
  In line (Py.splitlines content) ->
  Py.contains search_query (fold_case case_sensitive line) = true ->
  exists r, search_text case_sensitive search_query file_info content = Some r.
Proof.
  intros Hline Hc. unfold search_text.
  destruct (splitlines_substring content line Hline) as (a & b & Hab).
  assert (Hwhole : Py.contains search_query (fold_case case_sensitive content) = true).
  { rewrite Hab. apply fold_case_contains_inside, Hc. }
  rewrite Hwhole.
  apply list_elem_of_In, list_elem_of_lookup in Hline. destruct Hline as [k Hk].
  pose proof (matching_from_complete (Py.splitlines content) 0 _ k line Hk Hc) as Hin.
  unfold matching_lines.
  destruct (matching_from _ _ _ _ _) as [| m ms]; [destruct Hin |].
  eexists. reflexivity.
Qed.

Variable w : World.
Variable file_type : option string.

Lemma search_loop_complete files acc out f content r :
  search_loop case_sensitive search_query w file_type files acc = inr out ->
  In f files ->
  filtered_out file_type f = false ->
  read_path w (FileInfo.path f) = Text content ->
  search_text case_sensitive search_query f content = Some r ->
  In r out.
Proof.
  intros Hloop Hin Hfilt Hread Hst. revert acc Hloop.
  induction files as [| g files IH]; intros acc Hloop; [destruct Hin |].
  cbn [search_loop] in Hloop.
  destruct Hin as [-> | Hin].
  - rewrite Hfilt, Hread, Hst in Hloop.
    destruct (search_loop_shape _ _ _ _ _ _ _ Hloop) as (rs & fs & -> & _).
    apply in_or_app. left. apply in_or_app. right. left. reflexivity.
  - destruct (filtered_out file_type g); [apply (IH Hin _ Hloop) |].
    destruct (read_path w (FileInfo.path g)) as [c | e].
    + destruct (search_text case_sensitive search_query g c);
        apply (IH Hin _ Hloop).
    + destruct e; try discriminate; apply (IH Hin _ Hloop).
Qed.

End SearchComplete.

Lemma take_sorted_cut {A} (key : A -> nat) (l : list A) (n : nat) (m : A) :
  StronglySorted lt (map key l) ->
  In m l ->
  In m (take n l) \/
  (List.length (take n l) = n /\ forall x, In x (take n l) -> key x < key m).
Proof.
  intros Hsorted Hm. rewrite <- (take_drop n l) in Hm, Hsorted.
  apply in_app_or in Hm. destruct Hm as [Hm | Hm]; [left; exact Hm | right].
  split.
  - rewrite length_take.
    assert (List.length (drop n l) <> 0)
      by (destruct (drop n l); [destruct Hm | discriminate]).
    rewrite length_drop in H. lia.
  - intros x Hx. rewrite map_app in Hsorted.
    eapply (StronglySorted_app_1_elem_of lt); [exact Hsorted | |];
      apply list_elem_of_In, in_map; assumption.
Qed.

(** X8. The entries of a result are the first ten matching lines of the
    file as it reads now: a line that contains the needle has an entry
    with its number and stripped text, unless the result already holds
    ten entries, all for earlier lines. *)
Theorem X8_first_ten_matches (md5 : string -> string) (w : World) (s s' : Server)
    (args : SearchArgs) (body : SearchResponse.t) (r : FileResult.t)
    (content : string) (i : nat) (line : string) :
  search_content md5 w s args = (Ok body, s') ->
  In r (SearchResponse.results body) ->
  read_path w (FileResult.file r) = Text content ->
  Py.splitlines content !! i = Some line ->
  Py.contains (request_search_query args)
    (fold_case (request_case_sensitive args) line) = true ->
  (exists m, In m (FileResult.matches r) /\
             SearchMatch.line_number m = i + 1 /\
             SearchMatch.content m = Py.strip line) \/
  (List.length (FileResult.matches r) = 10 /\
   forall m, In m (FileResult.matches r) -> SearchMatch.line_number m < i + 1).
Proof.
  intros Hsearch Hr Hread Hi Hc. apply search_content_Ok in Hsearch.
  destruct Hsearch as (Hloop & _ & _).
  destruct (search_loop_In _ _ _ _ _ _ _ _ Hloop Hr)
    as [[] | (f & content' & _ & _ & Hread' & Htext)].
  apply search_text_Some in Htext. destruct Htext as (Hfile & _ & Hms & _).
  rewrite Hfile in Hread. assert (content' = content) by congruence. subst content'.
  rewrite Hms.
  pose proof (matching_from_complete (request_case_sensitive args)
                (request_search_query args) (Py.splitlines content) 0 _ i line Hi Hc)
    as Hin.
  destruct (take_sorted_cut SearchMatch.line_number _ 10 _
              (proj1 (matching_from_sorted _ _ (Py.splitlines content) 0 _)) Hin)
    as [Htake | [Hlen Hall]].
  - left. eexists. split; [exact Htake |]. split; reflexivity.
  - right. split; [exact Hlen |]. intros m Hm. specialize (Hall m Hm).
    cbn [match_entry SearchMatch.line_number] in Hall. lia.
Qed.

Lemma X8_first_ten_matches_witness :
  let r :=
    {| FileResult.file := "twenty.txt";
       FileResult.file_type := "text";
       FileResult.matches :=
         [ {| SearchMatch.line_number := 5;
              SearchMatch.content := "Q five";
              SearchMatch.context_before := ["l3"; "l4"];
              SearchMatch.context_after := ["l6"; "l7"] |};
           {| SearchMatch.line_number := 12;
              SearchMatch.content := "Q twelve";
              SearchMatch.context_before := ["l10"; "l11"];
              SearchMatch.context_after := ["l13"; "l14"] |} ] |} in
  (exists m, In m (FileResult.matches r) /\
             SearchMatch.line_number m = 11 + 1 /\
             SearchMatch.content m = Py.strip "Q twelve") \/
  (List.length (FileResult.matches r) = 10 /\
   forall m, In m (FileResult.matches r) -> SearchMatch.line_number m < 11 + 1).
Proof.
  intros r.
  apply (X8_first_ten_matches Sample.digest (Sample.world [Sample.twenty_txt])
           (Sample.server Sample.root)
           (snd (search_content Sample.digest (Sample.world [Sample.twenty_txt])
                   (Sample.server Sample.root) (Sample.ask "q" None)))
           (Sample.ask "q" None)
           {| SearchResponse.query := "q";
              SearchResponse.results := [r];
              SearchResponse.total_files_searched := 1;
              SearchResponse.files_with_matches := 1 |}
           r
           (String.concat Sample.nl
              ["l1"; "l2"; "l3"; "l4"; "  Q five "; "l6"; "l7"; "l8"; "l9"; "l10";
               "l11"; "Q twelve"; "l13"; "l14"; "l15"; "l16"; "l17"; "l18";
               "l19"; "l20"])
           11 "Q twelve").
  - vm_compute. reflexivity.
  - left. reflexivity.
  - reflexivity.
  - reflexivity.
  - reflexivity.
Defined.

(** X9. A search that answers misses no file that matches: every file
    of the current snapshot that passes the type filter, reads as text
    and has a line containing the needle has a result, under its path
    and category. *)
Theorem X9_matching_file_reported (md5 : string -> string) (w : World)
    (s s' : Server) (args : SearchArgs) (body : SearchResponse.t)
    (f : FileInfo.t) (content line : string) :
  search_content md5 w s args = (Ok body, s') ->
  In f (CodebaseSnapshot.files (fst (ensure_snapshot md5 w s))) ->
  filtered_out (arg_type args) f = false ->
  read_path w (FileInfo.path f) = Text content ->
  In line (Py.splitlines content) ->
  Py.contains (request_search_query args)
    (fold_case (request_case_sensitive args) line) = true ->
  exists r,
    In r (SearchResponse.results body) /\
    FileResult.file r = FileInfo.path f /\
    FileResult.file_type r = FileInfo.file_type f.
Proof.
  intros Hsearch Hf Hfilt Hread Hline Hc. apply search_content_Ok in Hsearch.
  destruct Hsearch as (Hloop & _ & _).
  destruct (search_text_complete (request_case_sensitive args)
              (request_search_query args) f content line Hline Hc) as [r Hst].
  exists r. split.
  - eapply search_loop_complete; eassumption.
  - apply search_text_Some in Hst. destruct Hst as (H1 & H2 & _). split; assumption.
Qed.

Lemma X9_matching_file_reported_witness :
  exists r,
    In r [ {| FileResult.file := "a.py";
              FileResult.file_type := "python";
              FileResult.matches :=
                [ {| SearchMatch.line_number := 1;
                     SearchMatch.content := "import os";
                     SearchMatch.context_before := [];
                     SearchMatch.context_after := ["print(os.name)"] |};
                  {| SearchMatch.line_number := 2;
                     SearchMatch.content := "print(os.name)";
                     SearchMatch.context_before := [];
                     SearchMatch.context_after := [] |} ] |} ] /\
    FileResult.file r = "a.py" /\ FileResult.file_type r = "python".
Proof.
  apply (X9_matching_file_reported Sample.digest
           (Sample.world [Sample.text_py; Sample.binary_md])
           (Sample.scanned [Sample.text_py; Sample.gone_py; Sample.binary_md])
           (Sample.scanned [Sample.text_py; Sample.gone_py; Sample.binary_md])
           (Sample.ask "os" (Some "python"))
           {| SearchResponse.query := "os";
              SearchResponse.results := _;
              SearchResponse.total_files_searched := 3;
              SearchResponse.files_with_matches := 1 |}
           {| FileInfo.path := "a.py";
              FileInfo.size := 12;
              FileInfo.modified := 100;
              FileInfo.content_hash :=
                Sample.digest (String.concat Sample.nl ["import os"; "print(os.name)"; ""]);
              FileInfo.file_type := "python";
              FileInfo.lines := 2 |}
           (String.concat Sample.nl ["import os"; "print(os.name)"; ""])
           "print(os.name)").
  - vm_compute. reflexivity.
  - left. reflexivity.
  - reflexivity.
  - reflexivity.
  - right. left. reflexivity.
  - reflexivity.
Defined.

(** ** Search: letter case *)

Lemma isspace_lower_char c : Py.isspace (Py.lower_char c) = Py.isspace c.
Proof. destruct c as [[] [] [] [] [] [] [] []]; reflexivity. Qed.

Lemma lstrip_lower s : Py.lstrip (Py.lower s) = Py.lower (Py.lstrip s).
Proof.
  induction s as [| c r IH]; [reflexivity |]. cbn [Py.lower Py.lstrip].
  rewrite isspace_lower_char. destruct (Py.isspace c); [exact IH | reflexivity].
Qed.

Lemma rstrip_lower s : Py.rstrip (Py.lower s) = Py.lower (Py.rstrip s).
Proof.
  induction s as [| c r IH]; [reflexivity |]. cbn [Py.lower Py.rstrip].
  rewrite IH, isspace_lower_char.
  destruct (Py.rstrip r); [destruct (Py.isspace c) |]; reflexivity.
Qed.

Lemma strip_lower s : Py.strip (Py.lower s) = Py.lower (Py.strip s).
Proof. unfold Py.strip. rewrite lstrip_lower, rstrip_lower. reflexivity. Qed.

Lemma lower_empty s : Py.lower s = EmptyString <-> s = EmptyString.
Proof. destruct s; cbn; split; congruence. Qed.

(** X10. A search that is not case-sensitive does not see the letter
    case of the query: two requests that differ only in [q], with
    queries equal once lowercased, get the same results and counts; only
    the echoed query differs. *)
Theorem X10_query_case_ignored (md5 : string -> string) (w : World) (s s' : Server)
    (args args' : SearchArgs) (body : SearchResponse.t) :
  request_case_sensitive args = false ->
  arg_case_sensitive args' = arg_case_sensitive args ->
  arg_type args' = arg_type args ->
  Py.lower (default EmptyString (arg_q args'))
    = Py.lower (default EmptyString (arg_q args)) ->
  search_content md5 w s args = (Ok body, s') ->
  search_content md5 w s args' =
  (Ok {| SearchResponse.query := Py.strip (default EmptyString (arg_q args'));
         SearchResponse.results := SearchResponse.results body;
         SearchResponse.total_files_searched :=
           SearchResponse.total_files_searched body;
         SearchResponse.files_with_matches :=
           SearchResponse.files_with_matches body |}, s').
Proof.
  intros Hci Hcs Htype Hq.
  assert (Hci' : request_case_sensitive args' = false)
    by (unfold request_case_sensitive in *; rewrite Hcs; exact Hci).
  assert (Hlow : Py.lower (request_query args') = Py.lower (request_query args))
    by (unfold request_query; rewrite <- !strip_lower, Hq; reflexivity).
  assert (Hneedle : request_search_query args' = request_search_query args)
    by (unfold request_search_query; rewrite Hci, Hci'; exact Hlow).
  assert (Hempty : truthy (Some (request_query args'))
                   = truthy (Some (request_query args))).
  { destruct (request_query args') eqn:E1, (request_query args) eqn:E2;
      try reflexivity; cbn in Hlow; discriminate. }
  rewrite !search_content_eq, Hempty, Hneedle, Hci, Hci', Htype.
  destruct (negb _); [discriminate |].
  destruct (search_loop _ _ _ _ _ _); [discriminate |].
  intros [= <- <-]. reflexivity.
Qed.

Lemma X10_query_case_ignored_witness :
  fst (search_content Sample.digest (Sample.world [Sample.twenty_txt])
         (Sample.server Sample.root) (Sample.ask "Q" None))
  = Ok {| SearchResponse.query := "Q";
          SearchResponse.results :=
            [ {| FileResult.file := "twenty.txt";
                 FileResult.file_type := "text";
                 FileResult.matches :=
                   [ {| SearchMatch.line_number := 5;
                        SearchMatch.content := "Q five";
                        SearchMatch.context_before := ["l3"; "l4"];
                        SearchMatch.context_after := ["l6"; "l7"] |};
                     {| SearchMatch.line_number := 12;
                        SearchMatch.content := "Q twelve";
                        SearchMatch.context_before := ["l10"; "l11"];
                        SearchMatch.context_after := ["l13"; "l14"] |} ] |} ];
          SearchResponse.total_files_searched := 1;
          SearchResponse.files_with_matches := 1 |}.
Proof.
  rewrite (X10_query_case_ignored Sample.digest (Sample.world [Sample.twenty_txt])
             (Sample.server Sample.root)
             (snd (search_content Sample.digest (Sample.world [Sample.twenty_txt])
                     (Sample.server Sample.root) (Sample.ask "q" None)))
             (Sample.ask "q" None) (Sample.ask "Q" None)
             {| SearchResponse.query := "q";
                SearchResponse.results :=
                  [ {| FileResult.file := "twenty.txt";
                       FileResult.file_type := "text";
                       FileResult.matches :=
                         [ {| SearchMatch.line_number := 5;
                              SearchMatch.content := "Q five";
                              SearchMatch.context_before := ["l3"; "l4"];
                              SearchMatch.context_after := ["l6"; "l7"] |};
                           {| SearchMatch.line_number := 12;
                              SearchMatch.content := "Q twelve";
                              SearchMatch.context_before := ["l10"; "l11"];
                              SearchMatch.context_after := ["l13"; "l14"] |} ] |} ];
                SearchResponse.total_files_searched := 1;
                SearchResponse.files_with_matches := 1 |}
             eq_refl eq_refl eq_refl eq_refl).
  - reflexivity.
  - vm_compute. reflexivity.
Defined.



(** ** Listing *)

Lemma get_files_eq md5 w s args :
  get_files md5 w s args =
  let snapshot := fst (ensure_snapshot md5 w s) in
  let file_type := farg_type args in
  let search := Py.lower (default EmptyString (farg_search args)) in
  let files := CodebaseSnapshot.files snapshot in
  let files :=
    if truthy file_type
    then List.filter
           (fun f => String.eqb (FileInfo.file_type f) (default EmptyString file_type))
           files
    else files in
  let files :=
    if truthy (Some search)
    then List.filter (fun f => Py.contains search (Py.lower (FileInfo.path f))) files
    else files in
  ({| FilesResponse.files := files;
      FilesResponse.total_count := List.length (CodebaseSnapshot.files snapshot);
      FilesResponse.filtered_count := List.length files |},
   snd (ensure_snapshot md5 w s)).
Proof.
  unfold get_files. destruct (ensure_snapshot md5 w s) as [snapshot s']. reflexivity.
Qed.

Lemma sublist_List_filter {A} (p : A -> bool) (l : list A) :
  List.filter p l `sublist_of` l.
Proof.
  induction l as [| x l IH]; [constructor |]. cbn [List.filter].
  destruct (p x); [apply sublist_skip | apply sublist_cons]; exact IH.
Qed.

(** X12. The listing route returns, in snapshot order, exactly the files
    of the current snapshot that have the requested category (when
    [type] is given and not empty) and whose lowercased path contains
    the lowercased [search] text (when that is not empty);
    [total_count] is the size of the whole snapshot, [filtered_count]
    the number of files returned, never more than [total_count]. *)
Theorem X12_listing_filters (md5 : string -> string) (w : World) (s : Server)
    (args : FilesArgs) :
  let answer := fst (get_files md5 w s args) in
  let snapshot := fst (ensure_snapshot md5 w s) in
  let search := Py.lower (default EmptyString (farg_search args)) in
  FilesResponse.files answer `sublist_of` CodebaseSnapshot.files snapshot /\
  (forall f,
      In f (FilesResponse.files answer) <->
      In f (CodebaseSnapshot.files snapshot) /\
      (truthy (farg_type args) = true ->
       farg_type args = Some (FileInfo.file_type f)) /\
      (search <> EmptyString ->
       Py.contains search (Py.lower (FileInfo.path f)) = true)) /\
  FilesResponse.total_count answer = List.length (CodebaseSnapshot.files snapshot) /\
  FilesResponse.filtered_count answer = List.length (FilesResponse.files answer) /\
  FilesResponse.filtered_count answer <= FilesResponse.total_count answer.
Proof.
  rewrite get_files_eq. cbn zeta. cbn [fst FilesResponse.files
    FilesResponse.total_count FilesResponse.filtered_count].
  set (fs := CodebaseSnapshot.files (fst (ensure_snapshot md5 w s))).
  set (search := Py.lower (default EmptyString (farg_search args))).
  set (by_type := if truthy (farg_type args)
                  then List.filter
                         (fun f => String.eqb (FileInfo.file_type f)
                                     (default EmptyString (farg_type args))) fs
                  else fs).
  set (by_search := if truthy (Some search)
                    then List.filter
                           (fun f => Py.contains search (Py.lower (FileInfo.path f)))
                           by_type
                    else by_type).
  assert (Hsub1 : by_type `sublist_of` fs).
  { unfold by_type. destruct (truthy (farg_type args));
      [apply sublist_List_filter | reflexivity]. }
  assert (Hsub2 : by_search `sublist_of` by_type).
  { unfold by_search. destruct (truthy (Some search));
      [apply sublist_List_filter | reflexivity]. }
  assert (Hsub : by_search `sublist_of` fs) by (etransitivity; eassumption).
  split; [exact Hsub |]. split; [| split; [reflexivity | split; [reflexivity |]]].
  - intros f.
    assert (H1 : In f by_type <->
                 In f fs /\ (truthy (farg_type args) = true ->
                             farg_type args = Some (FileInfo.file_type f))).
    { unfold by_type. destruct (farg_type args) as [[| c t] |]; cbn [truthy].
      - split; [intros H; split; [exact H | discriminate] | tauto].
      - rewrite filter_In, String.eqb_eq. change (default EmptyString (Some (String c t))) with (String c t). split.
        + intros [H ->]. split; [exact H | reflexivity].
        + intros [H Ht]. split; [exact H |].
          specialize (Ht eq_refl). congruence.
      - split; [intros H; split; [exact H | discriminate] | tauto]. }
    assert (H2 : In f by_search <->
                 In f by_type /\ (search <> EmptyString ->
                   Py.contains search (Py.lower (FileInfo.path f)) = true)).
    { unfold by_search. destruct search as [| c t]; cbn [truthy].
      - split; [intros H; split; [exact H | congruence] | tauto].
      - rewrite filter_In. split.
        + intros [H Hc]. split; [exact H | intros _; exact Hc].
        + intros [H Hc]. split; [exact H | apply Hc; discriminate]. }
    rewrite H2, H1. tauto.
  - apply sublist_length, Hsub.
Qed.

Lemma filter_category_count c fs :
  List.length (List.filter (fun f => String.eqb (FileInfo.file_type f) c) fs)
  = category_count c fs.
Proof.
  unfold category_count. induction fs as [| f fs IH]; [reflexivity |].
  cbn [List.filter map count_occ].
  destruct (String.eqb_spec (FileInfo.file_type f) c) as [Heq | Hne];
    destruct (string_dec (FileInfo.file_type f) c); try contradiction;
    cbn [List.length]; rewrite IH; reflexivity.
Qed.

(** X13. After a scan, listing one category returns as many files as
    the snapshot's [file_types] counts for it (none when the category is
    not a key), and [total_count] is the snapshot's [total_files]. *)
Theorem X13_listing_agrees_with_file_types (md5 : string -> string) (w0 w : World)
    (s0 : Server) (category : string) :
  category <> EmptyString ->
  let snapshot := fst (scan_codebase md5 w0 s0) in
  let answer :=
    fst (get_files md5 w (snd (scan_codebase md5 w0 s0))
           {| farg_type := Some category; farg_search := None |}) in
  FilesResponse.filtered_count answer
    = Py.get0 (CodebaseSnapshot.file_types snapshot) category /\
  FilesResponse.total_count answer = CodebaseSnapshot.total_files snapshot.
Proof.
  intros Hne. rewrite get_files_eq. cbn zeta.
  cbn [fst snd scan_codebase ensure_snapshot current_snapshot farg_type farg_search
       default Py.lower truthy FilesResponse.filtered_count
       FilesResponse.total_count].
  destruct category as [| c t]; [congruence |].
  cbn [truthy default make_snapshot CodebaseSnapshot.files
       CodebaseSnapshot.file_types CodebaseSnapshot.total_files].
  rewrite filter_category_count, get0_scan_walk, scan_walk_files.
  split; reflexivity.
Qed.

Lemma X13_listing_agrees_with_file_types_witness :
  FilesResponse.filtered_count
    (fst (get_files Sample.digest (Sample.world [])
            (Sample.scanned [Sample.text_py; Sample.gone_py; Sample.binary_md])
            {| farg_type := Some "python"; farg_search := None |}))
  = 2.
Proof.
  destruct (X13_listing_agrees_with_file_types Sample.digest
              (Sample.world [Sample.text_py; Sample.gone_py; Sample.binary_md])
              (Sample.world []) (Sample.server Sample.root) "python")
    as [Hcount _].
  - discriminate.
  - unfold Sample.scanned. rewrite Hcount. vm_compute. reflexivity.
Defined.

(** ** File content *)

Lemma find_unique_path (l : list Entry) (e : Entry) :
  NoDup (map (fun x => Path.str (rel_parts x)) l) ->
  In e l ->
  List.find (fun x => String.eqb (Path.str (rel_parts x)) (Path.str (rel_parts e))) l
  = Some e.
Proof.
  induction l as [| x l IH]; intros Hnd Hin; [destruct Hin |].
  cbn [map] in Hnd. apply NoDup_cons in Hnd. destruct Hnd as [Hx Hnd].
  cbn [List.find]. destruct Hin as [-> | Hin].
  - rewrite String.eqb_refl. reflexivity.
  - destruct (String.eqb_spec (Path.str (rel_parts x)) (Path.str (rel_parts e)))
      as [Heq | _]; [| apply IH; assumption].
    exfalso. apply Hx. rewrite Heq. apply list_elem_of_In.
    apply (in_map (fun x => Path.str (rel_parts x))), Hin.
Qed.

(** X14. The content route agrees with the scan of the same tree: when
    no two entries of the tree share a path, asking for the path of a
    record of the snapshot gives either the text whose digest, line
    count, size and modification time the record holds, or, for a record
    with [lines = 0] made from undecodable content, the 400 answer for
    binary files. *)
Theorem X14_content_agrees_with_scan (md5 : string -> string) (w : World)
    (s : Server) (f : FileInfo.t) :
  NoDup (map (fun e => Path.str (rel_parts e)) (tree w)) ->
  In f (CodebaseSnapshot.files (fst (scan_codebase md5 w s))) ->
  (exists body,
      get_file_content w (FileInfo.path f) = ContentOk body /\
      FileContent.path body = FileInfo.path f /\
      FileInfo.content_hash f = md5 (FileContent.content body) /\
      FileContent.lines body = FileInfo.lines f /\
      FileContent.size body = FileInfo.size f /\
      FileContent.modified body = FileInfo.modified f) \/
  (get_file_content w (FileInfo.path f) = Binary400 /\ FileInfo.lines f = 0).
Proof.
  intros Hnd Hf.
  cbn [scan_codebase fst make_snapshot CodebaseSnapshot.files] in Hf.
  rewrite scan_walk_files in Hf.
  apply list_elem_of_In, list_elem_of_omap in Hf. destruct Hf as (e & He & Hrec).
  apply list_elem_of_In in He. apply record_of_inv in Hrec.
  destruct Hrec as (st & _ & Hfile & _ & Hstat & Hpath & Hsize & Hmod & Hread).
  unfold get_file_content, find_entry.
  rewrite Hpath, (find_unique_path _ _ Hnd He), Hfile. cbn [negb].
  destruct Hread as [(content & Hread & Hhash & Hlines) | (Hread & _ & Hlines)];
    rewrite Hread.
  - left. rewrite Hstat. eexists. split; [reflexivity |].
    cbn. repeat split; congruence.
  - right. split; [reflexivity | exact Hlines].
Qed.

Lemma X14_content_agrees_with_scan_witness :
  (exists body,
      get_file_content (Sample.world [Sample.text_py; Sample.docs_dir; Sample.binary_md])
        "docs/logo.MD" = ContentOk body /\
      FileContent.lines body = 0) \/
  get_file_content (Sample.world [Sample.text_py; Sample.docs_dir; Sample.binary_md])
    "docs/logo.MD" = Binary400.
Proof.
  destruct (X14_content_agrees_with_scan Sample.digest
              (Sample.world [Sample.text_py; Sample.docs_dir; Sample.binary_md])
              (Sample.server Sample.root)
              {| FileInfo.path := "docs/logo.MD";
                 FileInfo.size := 12;
                 FileInfo.modified := 100;
                 FileInfo.content_hash := Sample.digest "/home/dev/project/docs/logo.MD";
                 FileInfo.file_type := "markdown";
                 FileInfo.lines := 0 |})
    as [(body & Hget & _ & _ & Hlines & _) | [Hget _]].
  - cbn. repeat constructor; cbn; intros H; inversion H as [| ? ? ? H'];
      try discriminate; inversion H' as [| ? ? ? H'']; try discriminate;
      inversion H''.
  - right. left. reflexivity.
  - left. exists body. split; [exact Hget | exact Hlines].
  - right. exact Hget.
Defined.

(** ** Statistics *)

Lemma increment_fold_lookup {A} (g : A -> string) (l : list A)
    (d : gmap string nat) (k : string) :
  fold_left (fun d x => increment d (g x)) l d !! k =
  match List.length (List.filter (fun x => String.eqb (g x) k) l) with
  | 0 => d !! k
  | S n => Some (Py.get0 d k + S n)
  end.
Proof.
  revert d. induction l as [| x l IH]; intros d; [reflexivity |].
  cbn [fold_left List.filter]. rewrite IH. unfold increment, Py.get0.
  destruct (String.eqb_spec (g x) k) as [Heq | Hne].
  - subst k. cbn [List.length]. rewrite lookup_insert_eq. cbn.
    destruct (List.length _); f_equal; lia.
  - rewrite lookup_insert_ne by exact Hne. reflexivity.
Qed.

Lemma size_bucket_cases (n : nat) :
  let z := Z.of_nat n in
  String.eqb (size_bucket n) "tiny" = (z <? 1024)%Z /\
  String.eqb (size_bucket n) "small" = ((1024 <=? z)%Z && (z <? 10240)%Z) /\
  String.eqb (size_bucket n) "medium" = ((10240 <=? z)%Z && (z <? 102400)%Z) /\
  String.eqb (size_bucket n) "large" = ((102400 <=? z)%Z && (z <? 1048576)%Z) /\
  String.eqb (size_bucket n) "huge" = (1048576 <=? z)%Z.
Proof.
  cbn zeta. unfold size_bucket.
  destruct (Z.ltb_spec (Z.of_nat n) 1024), (Z.ltb_spec (Z.of_nat n) 10240),
    (Z.ltb_spec (Z.of_nat n) 102400), (Z.ltb_spec (Z.of_nat n) 1048576),
    (Z.leb_spec 1024 (Z.of_nat n)), (Z.leb_spec 10240 (Z.of_nat n)),
    (Z.leb_spec 102400 (Z.of_nat n)), (Z.leb_spec 1048576 (Z.of_nat n));
    try lia; repeat split; reflexivity.
Qed.

Lemma filter_length_ext {A} (p q : A -> bool) (l : list A) :
  (forall x, p x = q x) ->
  List.length (List.filter p l) = List.length (List.filter q l).
Proof. intros H. rewrite (filter_ext p q H). reflexivity. Qed.

(** X15. With a snapshot, the size distribution has exactly the five
    keys tiny, small, medium, large and huge; each counts the files
    whose size is in its range (below 1024; from 1024 to below 10240;
    from 10240 to below 102400; from 102400 to below 1048576; 1048576
    and above), and the five counts add up to the number of files. *)
Theorem X15_size_distribution (s : Server) (snapshot : CodebaseSnapshot.t) :
  current_snapshot s = Some snapshot ->
  let d := calculate_size_distribution s in
  let count p := List.length (List.filter p (CodebaseSnapshot.files snapshot)) in
  let size f := Z.of_nat (FileInfo.size f) in
  d !! "tiny" = Some (count (fun f => (size f <? 1024)%Z)) /\
  d !! "small" = Some (count (fun f => (1024 <=? size f)%Z && (size f <? 10240)%Z)) /\
  d !! "medium" = Some (count (fun f => (10240 <=? size f)%Z && (size f <? 102400)%Z)) /\
  d !! "large" = Some (count (fun f => (102400 <=? size f)%Z && (size f <? 1048576)%Z)) /\
  d !! "huge" = Some (count (fun f => (1048576 <=? size f)%Z)) /\
  (forall k, ~ In k ["tiny"; "small"; "medium"; "large"; "huge"] -> d !! k = None) /\
  Py.get0 d "tiny" + Py.get0 d "small" + Py.get0 d "medium"
    + Py.get0 d "large" + Py.get0 d "huge"
  = List.length (CodebaseSnapshot.files snapshot).
Proof.
  intros Hsnap. cbn zeta. unfold calculate_size_distribution. rewrite Hsnap.
  set (fs := CodebaseSnapshot.files snapshot).
  assert (Hkey : forall k q v,
            empty_distribution !! k = Some 0 ->
            (forall f, String.eqb (size_bucket (FileInfo.size f)) k = q f) ->
            v = List.length (List.filter q fs) ->
            fold_left (fun d f => increment d (size_bucket (FileInfo.size f)))
              fs empty_distribution !! k = Some v).
  { intros k q v H0 Hq ->. rewrite increment_fold_lookup.
    rewrite (filter_length_ext _ q fs Hq). unfold Py.get0. rewrite H0.
    destruct (List.length _); reflexivity. }
  assert (H1 := Hkey "tiny" _ _ eq_refl
                  (fun f => proj1 (size_bucket_cases (FileInfo.size f))) eq_refl).
  assert (H2 := Hkey "small" _ _ eq_refl
                  (fun f => proj1 (proj2 (size_bucket_cases (FileInfo.size f)))) eq_refl).
  assert (H3 := Hkey "medium" _ _ eq_refl
                  (fun f => proj1 (proj2 (proj2 (size_bucket_cases (FileInfo.size f)))))
                  eq_refl).
  assert (H4 := Hkey "large" _ _ eq_refl
                  (fun f => proj1 (proj2 (proj2 (proj2
                     (size_bucket_cases (FileInfo.size f)))))) eq_refl).
  assert (H5 := Hkey "huge" _ _ eq_refl
                  (fun f => proj2 (proj2 (proj2 (proj2
                     (size_bucket_cases (FileInfo.size f)))))) eq_refl).
  cbn beta in H1, H2, H3, H4, H5.
  split; [exact H1 |]. split; [exact H2 |]. split; [exact H3 |].
  split; [exact H4 |]. split; [exact H5 |]. split.
  - intros k Hk. rewrite increment_fold_lookup.
    assert (Hnone : empty_distribution !! k = None).
    { unfold empty_distribution. cbn [In] in Hk.
      rewrite !lookup_insert_ne by (intros <-; tauto). apply lookup_empty. }
    assert (Hzero : List.filter
                      (fun f => String.eqb (size_bucket (FileInfo.size f)) k) fs = []).
    { clear -Hk. induction fs as [| f fs IH]; [reflexivity |]. cbn [List.filter].
      destruct (String.eqb_spec (size_bucket (FileInfo.size f)) k) as [Heq | _];
        [| exact IH].
      exfalso. apply Hk. rewrite <- Heq. unfold size_bucket. cbn [In].
      repeat destruct (_ <? _)%Z; tauto. }
    rewrite Hzero. exact Hnone.
  - unfold Py.get0. rewrite H1, H2, H3, H4, H5. cbn [default].
    clear. induction fs as [| f fs IH]; [reflexivity |].
    cbn [List.filter List.length].
    destruct (Z.ltb_spec (Z.of_nat (FileInfo.size f)) 1024),
      (Z.ltb_spec (Z.of_nat (FileInfo.size f)) 10240),
      (Z.ltb_spec (Z.of_nat (FileInfo.size f)) 102400),
      (Z.ltb_spec (Z.of_nat (FileInfo.size f)) 1048576),
      (Z.leb_spec 1024 (Z.of_nat (FileInfo.size f))),
      (Z.leb_spec 10240 (Z.of_nat (FileInfo.size f))),
      (Z.leb_spec 102400 (Z.of_nat (FileInfo.size f))),
      (Z.leb_spec 1048576 (Z.of_nat (FileInfo.size f)));
      try lia; cbn [andb List.length]; unfold id in *; lia.
Qed.

Lemma X15_size_distribution_witness :
  calculate_size_distribution (Sample.scanned [Sample.text_py; Sample.binary_md])
    !! "tiny" = Some 2 /\
  calculate_size_distribution (Sample.scanned [Sample.text_py; Sample.binary_md])
    !! "huge" = Some 0.
Proof.
  destruct (X15_size_distribution
              (Sample.scanned [Sample.text_py; Sample.binary_md])
              (fst (scan_codebase Sample.digest
                      (Sample.world [Sample.text_py; Sample.binary_md])
                      (Sample.server Sample.root)))
              eq_refl) as (Htiny & _ & _ & _ & Hhuge & _).
  rewrite Htiny, Hhuge. split; reflexivity.
Defined.

Lemma insert_newest_first_perm f l : insert_newest_first f l ≡ₚ f :: l.
Proof.
  induction l as [| g l IH]; [reflexivity |]. cbn [insert_newest_first].
  destruct (Qle_bool _ _); [reflexivity |].
  rewrite IH. apply perm_swap.
Qed.

Lemma sort_newest_first_perm l : sort_newest_first l ≡ₚ l.
Proof.
  induction l as [| f l IH]; [reflexivity |]. cbn [sort_newest_first fold_right].
  fold (sort_newest_first l). rewrite insert_newest_first_perm, IH. reflexivity.
Qed.

Lemma insert_newest_first_sorted f l :
  StronglySorted newer_file l -> StronglySorted newer_file (insert_newest_first f l).
Proof.
  induction 1 as [| g l Hl IH Hg]; cbn [insert_newest_first].
  - repeat constructor.
  - destruct (Qle_bool (FileInfo.modified g) (FileInfo.modified f)) eqn:E.
    + apply Qle_bool_iff in E. constructor; [constructor; assumption |].
      constructor; [exact E |].
      eapply Forall_impl; [exact Hg |]. intros x Hx. unfold newer_file in *.
      eapply Qle_trans; eassumption.
    + constructor; [exact IH |].
      rewrite insert_newest_first_perm. constructor; [| exact Hg].
      unfold newer_file. apply Qlt_le_weak, Qnot_le_lt. intros H.
      apply Qle_bool_iff in H. congruence.
Qed.

Lemma sort_newest_first_sorted l : StronglySorted newer_file (sort_newest_first l).
Proof.
  induction l as [| f l IH]; [constructor |]. cbn [sort_newest_first fold_right].
  apply insert_newest_first_sorted, IH.
Qed.

Lemma sort_newest_first_id l :
  StronglySorted newer_file l -> sort_newest_first l = l.
Proof.
  induction 1 as [| f l Hl IH Hf]; [reflexivity |].
  cbn [sort_newest_first fold_right]. fold (sort_newest_first l). rewrite IH.
  destruct l as [| g l]; [reflexivity |]. cbn [insert_newest_first].
  apply Forall_cons in Hf. destruct Hf as [Hg _].
  apply Qle_bool_iff in Hg. rewrite Hg. reflexivity.
Qed.

Lemma modified_after_spec cutoff f :
  modified_after cutoff f = true <-> (cutoff < FileInfo.modified f)%Q.
Proof.
  unfold modified_after. rewrite negb_true_iff. split.
  - intros H. apply Qnot_le_lt. intros Hle. apply Qle_bool_iff in Hle. congruence.
  - intros H. destruct (Qle_bool _ _) eqn:E; [| reflexivity].
    apply Qle_bool_iff in E. apply Qlt_not_le in H. contradiction.
Qed.

(** X16. The recent changes are at most 20 files of the current
    snapshot, all modified after now minus [hours] hours, newest first;
    they are the newest such files: a file of the snapshot modified
    after the cutoff is among them, or 20 files at least as recent are;
    files that are already in that order (equal times included) keep
    their snapshot order; without a snapshot the answer is empty. *)
Theorem X16_recent_changes (w : World) (s : Server) (hours : Z) :
  let recent := get_recent_file_changes w s hours in
  let cutoff := (now w - inject_Z (hours * 3600))%Q in
  List.length recent <= 20 /\
  StronglySorted newer_file recent /\
  (forall f, In f recent ->
     (cutoff < FileInfo.modified f)%Q /\
     exists snapshot,
       current_snapshot s = Some snapshot /\ In f (CodebaseSnapshot.files snapshot)) /\
  (forall snapshot f,
     current_snapshot s = Some snapshot ->
     In f (CodebaseSnapshot.files snapshot) ->
     (cutoff < FileInfo.modified f)%Q ->
     In f recent \/
     (List.length recent = 20 /\ forall g, In g recent -> newer_file g f)) /\
  (forall snapshot,
     current_snapshot s = Some snapshot ->
     StronglySorted newer_file
       (List.filter (modified_after cutoff) (CodebaseSnapshot.files snapshot)) ->
     recent = take 20 (List.filter (modified_after cutoff)
                         (CodebaseSnapshot.files snapshot))) /\
  (current_snapshot s = None -> recent = []).
Proof.
  cbn zeta. unfold get_recent_file_changes.
  replace (hours * 3600)%Z with (hours * 60 * 60)%Z by lia.
  set (cutoff := (now w - inject_Z (hours * 60 * 60))%Q).
  destruct (current_snapshot s) as [snapshot |].
  2:{ split; [cbn; lia |]. split; [constructor |].
      split; [intros f [] |]. split; [discriminate |].
      split; [discriminate | reflexivity]. }
  set (l := sort_newest_first
              (List.filter (modified_after cutoff) (CodebaseSnapshot.files snapshot))).
  assert (Hsorted : StronglySorted newer_file l) by apply sort_newest_first_sorted.
  assert (Hmem : forall f, In f l <->
            In f (CodebaseSnapshot.files snapshot) /\ (cutoff < FileInfo.modified f)%Q).
  { intros f. unfold l.
    rewrite <- (list_elem_of_In (sort_newest_first _)), sort_newest_first_perm.
    rewrite list_elem_of_In, filter_In, modified_after_spec. reflexivity. }
  split; [rewrite length_take; lia |].
  split; [apply StronglySorted_take, Hsorted |].
  split; [| split; [| split; [| discriminate]]].
  - intros f Hf. apply list_elem_of_In in Hf.
    apply (fun H => elem_of_sublist _ _ _ H (sublist_take _ _)) in Hf.
    apply list_elem_of_In, Hmem in Hf. destruct Hf as [Hin Hcut].
    split; [exact Hcut |]. exists snapshot. split; [reflexivity | exact Hin].
  - intros snapshot' f [= <-] Hin Hcut.
    assert (Hf : In f l) by (apply Hmem; split; assumption).
    rewrite <- (take_drop 20 l) in Hf, Hsorted.
    apply in_app_or in Hf. destruct Hf as [Hf | Hf]; [left; exact Hf | right].
    split.
    + rewrite length_take.
      assert (List.length (drop 20 l) <> 0)
        by (destruct (drop 20 l); [destruct Hf | discriminate]).
      rewrite length_drop in H. lia.
    + intros g Hg.
      eapply (StronglySorted_app_1_elem_of newer_file);
        [exact Hsorted | |]; apply list_elem_of_In; assumption.
  - intros snapshot' [= <-] Hs. unfold l. rewrite (sort_newest_first_id _ Hs).
    reflexivity.
Qed.

(** ** Git status *)

Lemma strip_head s c r : Py.strip s = String c r -> Py.isspace c = false.
Proof.
  unfold Py.strip. intros H. destruct (blank s) eqn:Hb.
  - rewrite (lstrip_blank s Hb) in H. discriminate.
  - destruct (lstrip_not_blank s Hb) as (c0 & r0 & Hl & Hc).
    rewrite Hl in H. destruct (rstrip_head c0 r0 Hc) as [r' Hr'].
    rewrite Hr' in H. injection H as <- _. exact Hc.
Qed.

Lemma split_newline_head c r :
  Py.isspace c = false ->
  exists l ls, split_newline (String c r) = String c l :: ls.
Proof.
  intros Hc. cbn [split_newline].
  destruct (Nat.eqb_spec (Py.code c) 10) as [E | _].
  - unfold Py.isspace in Hc. rewrite E in Hc. discriminate.
  - destruct (split_newline r) as [| l ls]; eexists; eexists; reflexivity.
Qed.

Lemma split_newline_length s : 1 <= List.length (split_newline s).
Proof.
  induction s as [| c r IH]; cbn [split_newline]; [cbn; lia |].
  destruct (Py.code c =? 10); [cbn [List.length]; lia |].
  destruct (split_newline r); cbn [List.length] in *; lia.
Qed.

Lemma startswith_exclusive l :
  (if String.prefix " M" l then 1 else 0)
  + (if String.prefix "A " l then 1 else 0)
  + (if String.prefix "??" l then 1 else 0) <= 1.
Proof.
  destruct l as [| c l]; [cbn; lia |]. cbn [String.prefix].
  destruct (Ascii.ascii_dec " " c) as [E0 |],
           (Ascii.ascii_dec "A" c) as [E1 |],
           (Ascii.ascii_dec "?" c) as [E2 |];
    try congruence;
    repeat match goal with |- context [String.prefix ?a ?b] =>
             destruct (String.prefix a b) end; lia.
Qed.

Lemma count_startswith_sum lines :
  count_startswith " M" lines + count_startswith "A " lines
  + count_startswith "??" lines <= List.length lines.
Proof.
  unfold count_startswith. induction lines as [| l lines IH]; [cbn; lia |].
  cbn [List.filter]. pose proof (startswith_exclusive l) as Hex.
  destruct (String.prefix " M" l), (String.prefix "A " l), (String.prefix "??" l);
    cbn [List.length]; lia.
Qed.

Lemma count_startswith_le p lines : count_startswith p lines <= List.length lines.
Proof.
  unfold count_startswith. induction lines as [| l lines IH]; [cbn; lia |].
  cbn [List.filter]. destruct (String.prefix p l); cbn [List.length]; lia.
Qed.

(** X17. When git answers with return code 0, the status counts what
    is left of its output after stripping: the tree is clean, with no
    change counted, exactly when the output is all whitespace; modified,
    added and untracked files together never exceed the total; and the
    first line, whose leading blank the stripping removes, is never
    counted as modified, so that [modified_files] stays below
    [total_changes].  In every other case there is no status. *)
Theorem X17_git_status_counts (run : option CompletedProcess) (st : GitStatus.t) :
  get_git_status run = Some st ->
  exists result,
    run = Some result /\ returncode result = 0%Z /\
    (GitStatus.clean st = true <-> blank (stdout result) = true) /\
    (GitStatus.total_changes st = 0 <-> blank (stdout result) = true) /\
    GitStatus.modified_files st + GitStatus.added_files st
      + GitStatus.untracked_files st <= GitStatus.total_changes st /\
    (GitStatus.total_changes st = 0 \/
     GitStatus.modified_files st < GitStatus.total_changes st).
Proof.
  unfold get_git_status. destruct run as [result |]; [| discriminate].
  destruct (Z.eqb_spec (returncode result) 0) as [Hrc | _]; [| discriminate].
  intros [= <-]. exists result. split; [reflexivity |]. split; [exact Hrc |].
  cbn [GitStatus.clean GitStatus.total_changes GitStatus.modified_files
       GitStatus.added_files GitStatus.untracked_files].
  destruct (Py.strip (stdout result)) as [| c r] eqn:Hstrip; cbn [truthy].
  - assert (Hb : blank (stdout result) = true) by (apply strip_blank, Hstrip).
    cbn. rewrite Hb. repeat split; lia.
  - assert (Hb : blank (stdout result) = false).
    { destruct (blank (stdout result)) eqn:Hb; [| reflexivity].
      apply strip_blank in Hb. congruence. }
    pose proof (split_newline_length (String c r)) as Hlen.
    pose proof (count_startswith_sum (split_newline (String c r))) as Hsum.
    destruct (split_newline_head c r (strip_head _ _ _ Hstrip)) as (l & ls & Hsplit).
    rewrite Hb. split; [| split; [| split; [exact Hsum | right]]].
    + destruct (Nat.eqb_spec (List.length (split_newline (String c r))) 0);
        [lia | split; discriminate].
    + split; [lia | discriminate].
    + rewrite Hsplit. unfold count_startswith. cbn [List.filter String.prefix].
      destruct (Ascii.ascii_dec " " c) as [<- | _].
      * apply strip_head in Hstrip. discriminate.
      * pose proof (count_startswith_le " M" ls) as Hle.
        unfold count_startswith in Hle. cbn [List.length]. lia.
Qed.

Lemma X17_git_status_counts_witness :
  get_git_status
    (Some {| returncode := 0;
             stdout := String.concat Sample.nl [" M a.py"; "?? b.txt"; ""] |})
  = Some {| GitStatus.clean := false;
            GitStatus.modified_files := 0;
            GitStatus.added_files := 0;
            GitStatus.untracked_files := 1;
            GitStatus.total_changes := 2 |} /\
  exists result,
    returncode result = 0%Z /\
    stdout result = String.concat Sample.nl [" M a.py"; "?? b.txt"; ""].
Proof.
  split; [reflexivity |].
  destruct (X17_git_status_counts
              (Some {| returncode := 0;
                       stdout := String.concat Sample.nl [" M a.py"; "?? b.txt"; ""] |})
              {| GitStatus.clean := false;
                 GitStatus.modified_files := 0;
                 GitStatus.added_files := 0;
                 GitStatus.untracked_files := 1;
                 GitStatus.total_changes := 2 |} eq_refl)
    as (result & Hrun & Hrc & _).
  exists result. split; [exact Hrc |]. injection Hrun as <-. reflexivity.
Defined.

(** ** File watcher *)




(** ** Scan and read routes together *)

Lemma read_path_of_entry (w : World) (e : Entry) :
  NoDup (map (fun x => Path.str (rel_parts x)) (tree w)) ->
  In e (tree w) ->
  read_path w (Path.str (rel_parts e)) = read e.
Proof.
  intros Hnd Hin. unfold read_path.
  rewrite (find_unique_path _ _ Hnd Hin). reflexivity.
Qed.

(** X19. On the tree a scan has just seen, with no two entries sharing a
    path, every search result is for a file of that snapshot and every
    match lies within the line count the snapshot records for the file:
    its line number is between 1 and the record's [lines]. *)
Theorem X19_matches_within_recorded_lines (md5 : string -> string) (w : World)
    (s s' : Server) (args : SearchArgs) (body : SearchResponse.t)
    (r : FileResult.t) :
  NoDup (map (fun e => Path.str (rel_parts e)) (tree w)) ->
  search_content md5 w (snd (scan_codebase md5 w s)) args = (Ok body, s') ->
  In r (SearchResponse.results body) ->
  exists f,
    In f (CodebaseSnapshot.files (fst (scan_codebase md5 w s))) /\
    FileResult.file r = FileInfo.path f /\
    FileResult.file_type r = FileInfo.file_type f /\
    forall m, In m (FileResult.matches r) ->
              1 <= SearchMatch.line_number m <= FileInfo.lines f.
Proof.
  intros Hnd Hsearch Hr. apply search_content_Ok in Hsearch.
  destruct Hsearch as (Hloop & _ & _).
  cbn [ensure_snapshot scan_codebase snd fst current_snapshot] in Hloop.
  destruct (search_loop_In _ _ _ _ _ _ _ _ Hloop Hr)
    as [[] | (f & content & Hf & _ & Hread & Htext)].
  apply search_text_Some in Htext. destruct Htext as (Hfile & Htype & Hms & _).
  exists f. split; [exact Hf |]. split; [exact Hfile |]. split; [exact Htype |].
  assert (Hlines : FileInfo.lines f = List.length (Py.splitlines content)).
  { cbn [make_snapshot CodebaseSnapshot.files] in Hf. rewrite scan_walk_files in Hf.
    apply list_elem_of_In, list_elem_of_omap in Hf. destruct Hf as (e & He & Hrec).
    apply list_elem_of_In in He. apply record_of_inv in Hrec.
    destruct Hrec as (st & _ & _ & _ & _ & Hpath & _ & _ & Hcase).
    rewrite Hpath, (read_path_of_entry w e Hnd He) in Hread.
    destruct Hcase as [(c & Hc & _ & Hl) | (Hc & _)]; congruence. }
  intros m Hm. rewrite Hms in Hm.
  apply list_elem_of_In in Hm.
  apply (fun H => elem_of_sublist _ _ _ H (sublist_take _ _)) in Hm.
  apply list_elem_of_In, matching_from_In in Hm.
  destruct Hm as (k & line & Hk & _ & ->).
  apply lookup_lt_Some in Hk. cbn [match_entry SearchMatch.line_number].
  rewrite Hlines. lia.
Qed.

Lemma X19_matches_within_recorded_lines_witness :
  exists f,
    In f (CodebaseSnapshot.files
            (fst (scan_codebase Sample.digest (Sample.world [Sample.twenty_txt])
                    (Sample.server Sample.root)))) /\
    FileInfo.path f = "twenty.txt" /\ 12 <= FileInfo.lines f.
Proof.
  pose (r := {| FileResult.file := "twenty.txt";
                FileResult.file_type := "text";
                FileResult.matches :=
                  [ {| SearchMatch.line_number := 5;
                       SearchMatch.content := "Q five";
                       SearchMatch.context_before := ["l3"; "l4"];
                       SearchMatch.context_after := ["l6"; "l7"] |};
                    {| SearchMatch.line_number := 12;
                       SearchMatch.content := "Q twelve";
                       SearchMatch.context_before := ["l10"; "l11"];
                       SearchMatch.context_after := ["l13"; "l14"] |} ] |}).
  destruct (X19_matches_within_recorded_lines Sample.digest
              (Sample.world [Sample.twenty_txt]) (Sample.server Sample.root)
              (Sample.scanned [Sample.twenty_txt]) (Sample.ask "q" None)
              {| SearchResponse.query := "q";
                 SearchResponse.results := [r];
                 SearchResponse.total_files_searched := 1;
                 SearchResponse.files_with_matches := 1 |}
              r)
    as (f & Hf & Hfile & _ & Hm).
  - cbn. repeat constructor. intros H. inversion H.
  - vm_compute. reflexivity.
  - left. reflexivity.
  - exists f. split; [exact Hf |]. split; [symmetry; exact Hfile |].
    apply (Hm _ (or_intror (or_introl eq_refl))).
Defined.

(** X20. Read routes bootstrap at most once: repeating a search or a
    listing in the same world, on the server as the first call left it,
    gives the same answer and leaves the server as it is; in particular
    the repeat neither scans nor writes to the database. *)
Theorem X20_read_routes_repeat (md5 : string -> string) (w : World) (s : Server)
    (sargs : SearchArgs) (fargs : FilesArgs) :
  search_content md5 w (snd (search_content md5 w s sargs)) sargs
    = search_content md5 w s sargs /\
  get_files md5 w (snd (get_files md5 w s fargs)) fargs
    = get_files md5 w s fargs.
Proof.
  assert (Hens : forall s0,
            ensure_snapshot md5 w (snd (ensure_snapshot md5 w s0))
            = ensure_snapshot md5 w s0).
  { intros s0. unfold ensure_snapshot at 2 3.
    destruct (current_snapshot s0) as [snap |] eqn:E.
    - cbn [snd]. unfold ensure_snapshot. rewrite E. reflexivity.
    - reflexivity. }
  split.
  - rewrite (search_content_eq md5 w s sargs).
    destruct (negb (truthy (Some (request_query sargs)))) eqn:Hq.
    + cbn [snd]. rewrite search_content_eq, Hq. reflexivity.
    + destruct (search_loop _ _ _ _ _ _) as [e | out] eqn:Hloop; cbn [snd];
        rewrite search_content_eq, Hq, Hens, Hloop; reflexivity.
  - rewrite (get_files_eq md5 w s fargs). cbn zeta. cbn [snd].
    rewrite get_files_eq. cbn zeta. rewrite Hens. reflexivity.
Qed.
